(** * ai-call-auditor-frontend: the upload and review pages of [src/App.jsx]

    A shallow embedding of the two React components of [src/App.jsx]:
    [UploadPage] with its [handleSubmit], and [ReviewPage] with
    [fetchData], [handleChatSubmit], [handleSearchSubmit],
    [jumpToTimestamp] and the JSX both components return.

    - JavaScript values are the inductive [jsval]; a string is its
      sequence of UTF-16 code units.
    - An [async] function is a term of the free monad [proc]: state
      setters, [navigate] and [fetch] are its actions, [throw] its
      abrupt completion; [try]/[catch]/[finally] are functions on it.
      An updater function passed to a setter is run by React when it
      renders, outside the [try] of the function that passed it.
    - The network is an oracle from requests to outcomes; running a
      handler against it yields the final component state, the trace of
      requests, completions and navigations, and the completion of the
      handler. *)

From Stdlib Require Import List NArith ZArith Bool String Ascii Lia Floats.
From ExtLib Require Import Structures.Monad Structures.MonadExc.
Import ListNotations.
Import MonadNotation.
Local Open Scope monad_scope.
Local Open Scope list_scope.

Set Implicit Arguments.
Set Warnings "-register-all".

(* ===================================================================== *)
(** ** JavaScript strings *)
(* ===================================================================== *)

(** A JavaScript string: the list of its UTF-16 code units. *)
Definition jsstring : Type := list N.

(** The string written by an ASCII literal of the source. *)
Definition lit (s : string) : jsstring :=
  List.map N_of_ascii (list_ascii_of_string s).

Fixpoint jsstring_eqb (a b : jsstring) : bool :=
  match a, b with
  | [], [] => true
  | x :: a', y :: b' => N.eqb x y && jsstring_eqb a' b'
  | _, _ => false
  end.

(** ECMAScript [WhiteSpace] and [LineTerminator] code points, the ones
    [String.prototype.trim] strips. *)
Definition is_whitespace (c : N) : bool :=
  match c with
  | 0x9 | 0xA | 0xB | 0xC | 0xD | 0x20 | 0xA0 | 0x1680
  | 0x2000 | 0x2001 | 0x2002 | 0x2003 | 0x2004 | 0x2005
  | 0x2006 | 0x2007 | 0x2008 | 0x2009 | 0x200A
  | 0x2028 | 0x2029 | 0x202F | 0x205F | 0x3000 | 0xFEFF => true
  | _ => false
  end%N.

Fixpoint trimStart (s : jsstring) : jsstring :=
  match s with
  | c :: s' => if is_whitespace c then trimStart s' else s
  | [] => []
  end.

Definition trimEnd (s : jsstring) : jsstring := rev (trimStart (rev s)).

(** [s.trim()] *)
Definition trim (s : jsstring) : jsstring := trimEnd (trimStart s).

(* ===================================================================== *)
(** ** JavaScript values *)
(* ===================================================================== *)

(** The values the program handles: what [JSON.parse] produces, and
    [undefined], which reading an absent property produces. An object is
    the list of its own properties, each name once. *)
Inductive jsval : Type :=
| VUndef
| VNull
| VBool (b : bool)
| VNum (n : float)
| VStr (s : jsstring)
| VArr (items : list jsval)
| VObj (props : list (jsstring * jsval)).

(** What an abrupt completion carries. *)
Inductive exn : Type :=
| TypeError
| SyntaxError
| Error (message : jsstring).

(** The completion of an evaluation: a value, or a thrown exception. *)
Inductive completion (A : Type) : Type :=
| Normal (a : A)
| Abrupt (e : exn).
Arguments Normal {A} a.
Arguments Abrupt {A} e.

Definition completion_bind {A B} (c : completion A) (f : A -> completion B)
  : completion B :=
  match c with
  | Normal a => f a
  | Abrupt e => Abrupt e
  end.

#[export] Instance Monad_completion : Monad completion :=
  { ret := @Normal; bind := @completion_bind }.

(** [ToBoolean]: [undefined], [null], [false], [+0], [-0], [NaN] and the
    empty string are falsy, everything else is truthy. *)
Definition ToBoolean (v : jsval) : bool :=
  match v with
  | VUndef | VNull => false
  | VBool b => b
  | VNum n => negb (PrimFloat.eqb n 0 || PrimFloat.is_nan n)
  | VStr [] => false
  | VStr (_ :: _) => true
  | VArr _ | VObj _ => true
  end.

(** [a || b] on values already evaluated. *)
Definition js_or (a b : jsval) : jsval := if ToBoolean a then a else b.

Fixpoint own_property (props : list (jsstring * jsval)) (name : jsstring)
  : jsval :=
  match props with
  | [] => VUndef
  | (k, v) :: rest => if jsstring_eqb k name then v else own_property rest name
  end.

(** [v.name], for a [name] that no built-in prototype defines (every
    name the program reads but [length] is such): a [TypeError] on
    [undefined] and [null], the own property of an object, [undefined]
    on anything else. *)
Definition get_prop (v : jsval) (name : jsstring) : completion jsval :=
  match v with
  | VUndef | VNull => Abrupt TypeError
  | VObj props => Normal (own_property props name)
  | VBool _ | VNum _ | VStr _ | VArr _ => Normal VUndef
  end.

(** The two conversions between numbers and strings that the language
    provides and this development does not spell out: [Number::toString]
    and [StringToNumber]. Everything below holds for any such pair. *)
Class NumberConversions : Type :=
  { Number_toString : float -> jsstring;
    StringToNumber : jsstring -> float }.

(** Whether an object has an own property [name]. *)
Fixpoint has_own_property (props : list (jsstring * jsval)) (name : jsstring)
  : bool :=
  match props with
  | [] => false
  | (k, _) :: rest => jsstring_eqb k name || has_own_property rest name
  end.

Section Coercions.
Context {conv : NumberConversions}.

Definition join_comma (parts : list jsstring) : jsstring :=
  match parts with
  | [] => []
  | p :: rest => p ++ List.concat (List.map (fun q => lit "," ++ q) rest)
  end.

(** [ToString], as a template literal applies it. An array is joined
    with commas, [undefined] and [null] elements giving the empty
    string. An object goes through [ToPrimitive]: its [toString] is the
    built-in one, giving ["[object Object]"], unless the object has an
    own property of that name, which, coming from JSON, is not callable;
    [valueOf] then returns the object itself and the conversion throws a
    [TypeError]. *)
Fixpoint ToString (v : jsval) : completion jsstring :=
  match v with
  | VUndef => Normal (lit "undefined")
  | VNull => Normal (lit "null")
  | VBool true => Normal (lit "true")
  | VBool false => Normal (lit "false")
  | VNum n => Normal (Number_toString n)
  | VStr s => Normal s
  | VArr items =>
      match
        (fix join_items (l : list jsval) : completion (list jsstring) :=
           match l with
           | [] => Normal []
           | x :: l' =>
               match
                 match x with
                 | VUndef | VNull => Normal []
                 | _ => ToString x
                 end
               with
               | Normal part =>
                   match join_items l' with
                   | Normal parts => Normal (part :: parts)
                   | Abrupt e => Abrupt e
                   end
               | Abrupt e => Abrupt e
               end
           end) items
      with
      | Normal parts => Normal (join_comma parts)
      | Abrupt e => Abrupt e
      end
  | VObj props =>
      if has_own_property props (lit "toString") then Abrupt TypeError
      else Normal (lit "[object Object]")
  end.

(** [ToNumber]; arrays and objects go through [ToPrimitive], which for
    these values gives what [ToString] gives, or throws as it does. *)
Definition ToNumber (v : jsval) : completion float :=
  match v with
  | VUndef => Normal PrimFloat.nan
  | VNull => Normal 0%float
  | VBool true => Normal 1%float
  | VBool false => Normal 0%float
  | VNum n => Normal n
  | VStr s => Normal (StringToNumber s)
  | VArr _ | VObj _ =>
      match ToString v with
      | Normal s => Normal (StringToNumber s)
      | Abrupt e => Abrupt e
      end
  end.

(** [v > 0] *)
Definition gt_zero (v : jsval) : completion bool :=
  match ToNumber v with
  | Normal n => Normal (PrimFloat.ltb 0 n)
  | Abrupt e => Abrupt e
  end.
End Coercions.

(* ===================================================================== *)
(** ** The network *)
(* ===================================================================== *)

(** A file picked in a file input: its name and its bytes. *)
Record File : Type := { file_name : jsstring; file_bytes : list N }.

Inductive http_method : Type := GET | POST.

(** The [body] option of a [fetch] call: none, a [FormData] with its
    appended fields in order, or [JSON.stringify] of a value. *)
Inductive request_body : Type :=
| NoBody
| FormData (fields : list (jsstring * File))
| JsonBody (v : jsval).

Record request : Type :=
  { req_method : http_method;
    req_url : jsstring;
    req_headers : list (jsstring * jsstring);
    req_body : request_body }.

(** A response as the program can observe it: its status, and what
    [res.json()] resolves to, [None] when reading or parsing the body
    fails. *)
Record response : Type :=
  { res_status : Z;
    res_body : option jsval }.

(** [res.ok]: the status is in the range 200-299. *)
Definition res_ok (res : response) : bool :=
  ((200 <=? res_status res) && (res_status res <=? 299))%Z.

(** How the promise of a [fetch] settles: rejected on a network failure,
    fulfilled with a response (of any status) otherwise. *)
Inductive fetch_result : Type :=
| NetworkError
| Response (res : response).

Definition API_BASE_URL : jsstring :=
  lit "https://ai-call-auditor-production.up.railway.app".

(* ===================================================================== *)
(** ** Asynchronous handlers *)
(* ===================================================================== *)

(** The body of an [async] function of a component whose state has type
    [S]. [SetState f] is a call of a state setter ([f] is the update it
    enqueues), [Navigate] a call of [navigate], and [Await r k] the
    expression [await fetch(r)]: the function is suspended until the
    promise settles, and continues with [k]. [SetStateFn u] is a call of
    a state setter with an updater function whose body can throw: the
    call itself returns normally, and React evaluates [u] on the state
    held when it next renders, outside any [try] of the caller. *)
Inductive proc (S A : Type) : Type :=
| Ret (a : A)
| Throw (e : exn)
| SetState (f : S -> S) (k : proc S A)
| SetStateFn (u : S -> completion S) (k : proc S A)
| Navigate (path : jsstring) (k : proc S A)
| Await (r : request) (k : fetch_result -> proc S A).
Arguments Ret {S A} a.
Arguments Throw {S A} e.

Section Proc.
Context {S : Type}.

Fixpoint proc_bind {A B} (p : proc S A) (f : A -> proc S B) : proc S B :=
  match p with
  | Ret a => f a
  | Throw e => Throw e
  | SetState g k => SetState g (proc_bind k f)
  | SetStateFn u k => SetStateFn u (proc_bind k f)
  | Navigate path k => Navigate path (proc_bind k f)
  | Await r k => Await r (fun o => proc_bind (k o) f)
  end.

(** [try { p } catch (e) { h e }] *)
Fixpoint try_catch {A} (p : proc S A) (h : exn -> proc S A) : proc S A :=
  match p with
  | Ret a => Ret a
  | Throw e => h e
  | SetState g k => SetState g (try_catch k h)
  | SetStateFn u k => SetStateFn u (try_catch k h)
  | Navigate path k => Navigate path (try_catch k h)
  | Await r k => Await r (fun o => try_catch (k o) h)
  end.

(** [try { p } finally { f }]: [f] runs on either completion of [p],
    which is then resumed unless [f] itself completes abruptly. *)
Fixpoint try_finally {A} (p : proc S A) (f : proc S unit) : proc S A :=
  match p with
  | Ret a => proc_bind f (fun _ => Ret a)
  | Throw e => proc_bind f (fun _ => Throw e)
  | SetState g k => SetState g (try_finally k f)
  | SetStateFn u k => SetStateFn u (try_finally k f)
  | Navigate path k => Navigate path (try_finally k f)
  | Await r k => Await r (fun o => try_finally (k o) f)
  end.
End Proc.

#[export] Instance Monad_proc {S} : Monad (proc S) :=
  { ret := @Ret S; bind := @proc_bind S }.

#[export] Instance Exc_proc {S} : MonadExc exn (proc S) :=
  { raise := @Throw S; catch := @try_catch S }.

(** [try { p } catch (e) { h e } finally { f }] *)
Definition try_catch_finally {S A} (p : proc S A) (h : exn -> proc S A)
  (f : proc S unit) : proc S A :=
  try_finally (catch p h) f.

Section Actions.
Context {S : Type}.

Definition set_state (f : S -> S) : proc S unit := SetState f (Ret tt).

Definition set_state_fn (u : S -> completion S) : proc S unit :=
  SetStateFn u (Ret tt).

Definition navigate (path : jsstring) : proc S unit := Navigate path (Ret tt).

(** [await fetch(r)]: the response, or the rejection thrown. *)
Definition fetch (r : request) : proc S response :=
  Await r (fun o => match o with
                    | NetworkError => Throw TypeError
                    | Response res => Ret res
                    end).

(** [await res.json()]: the body, read and parsed. The suspension this
    [await] adds issues no request and leaves no event in a trace. *)
Definition json (res : response) : proc S jsval :=
  match res_body res with
  | Some v => Ret v
  | None => Throw SyntaxError
  end.

(** An expression evaluated inside an [async] function. *)
Definition eval {A} (c : completion A) : proc S A :=
  match c with
  | Normal a => Ret a
  | Abrupt e => Throw e
  end.
End Actions.

(* ===================================================================== *)
(** ** Running a handler *)
(* ===================================================================== *)

(** What an observer of the page sees happen, in order. [RenderThrew e]:
    an updater threw [e] while React was rendering; nothing catches it,
    and React takes the page down. *)
Inductive event : Type :=
| Issued (r : request)
| Settled (r : request) (o : fetch_result)
| Navigated (path : jsstring)
| RenderThrew (e : exn).

(** A handler that has run as far as it can without the network: it has
    completed, or it is suspended on a request. *)
Inductive paused (S A : Type) : Type :=
| Finished (c : completion A)
| Pending (r : request) (k : fetch_result -> proc S A).
Arguments Finished {S A} c.

Section Run.
Context {S A : Type}.

(** The synchronous part of [p] from state [s]: up to its completion
    or its first [await]. *)
Fixpoint until_await (p : proc S A) (s : S) : S * list event * paused S A :=
  match p with
  | Ret a => (s, [], Finished (Normal a))
  | Throw e => (s, [], Finished (Abrupt e))
  | SetState f k => until_await k (f s)
  | SetStateFn u k =>
      match u s with
      | Normal s' => until_await k s'
      | Abrupt e =>
          let '(_, tr, w) := until_await k s in (s, RenderThrew e :: tr, w)
      end
  | Navigate path k =>
      let '(s', tr, w) := until_await k s in (s', Navigated path :: tr, w)
  | Await r k => (s, [Issued r], Pending r k)
  end.

(** [p] run to completion from state [s], every request [r] settling
    as [env r]. When an updater throws, the state returned is the one
    the page held then: the rest of the handler still runs, but there is
    no page left for its updates. *)
Fixpoint run (env : request -> fetch_result) (p : proc S A) (s : S)
  : S * list event * completion A :=
  match p with
  | Ret a => (s, [], Normal a)
  | Throw e => (s, [], Abrupt e)
  | SetState f k => run env k (f s)
  | SetStateFn u k =>
      match u s with
      | Normal s' => run env k s'
      | Abrupt e =>
          let '(_, tr, c) := run env k s in (s, RenderThrew e :: tr, c)
      end
  | Navigate path k =>
      let '(s', tr, c) := run env k s in (s', Navigated path :: tr, c)
  | Await r k =>
      let '(s', tr, c) := run env (k (env r)) s in
      (s', Issued r :: Settled r (env r) :: tr, c)
  end.

(** The request a suspended handler waits for. *)
Definition awaiting (w : paused S A) : option request :=
  match w with
  | Pending r _ => Some r
  | Finished _ => None
  end.

(** A suspended handler resumed when its request settles as [o]. *)
Definition resume (w : paused S A) (o : fetch_result) : proc S A :=
  match w with
  | Pending _ k => k o
  | Finished (Normal a) => Ret a
  | Finished (Abrupt e) => Throw e
  end.
End Run.

(** The three components of a run. *)
Definition final_state {S X} (x : S * list event * X) : S := fst (fst x).
Definition trace {S X} (x : S * list event * X) : list event := snd (fst x).
Definition outcome {S X} (x : S * list event * X) : X := snd x.

(** The states in which [p], run from [s], is suspended on a request,
    one per [await], in order: what the page holds, and shows, while
    that request is in flight. *)
Fixpoint suspended_states {S A} (env : request -> fetch_result)
  (p : proc S A) (s : S) : list S :=
  match p with
  | Ret _ | Throw _ => []
  | SetState f k => suspended_states env k (f s)
  | SetStateFn u k =>
      match u s with
      | Normal s' => suspended_states env k s'
      | Abrupt _ => []
      end
  | Navigate _ k => suspended_states env k s
  | Await r k => s :: suspended_states env (k (env r)) s
  end.

(** The requests a trace issues, in order. *)
Fixpoint issued (tr : list event) : list request :=
  match tr with
  | [] => []
  | Issued r :: tr' => r :: issued tr'
  | _ :: tr' => issued tr'
  end.

(** The paths a trace navigates to, in order. *)
Fixpoint navigations (tr : list event) : list jsstring :=
  match tr with
  | [] => []
  | Navigated path :: tr' => path :: navigations tr'
  | _ :: tr' => navigations tr'
  end.

(** The requests issued before the first completion of any request. *)
Fixpoint issued_before_any_settles (tr : list event) : list request :=
  match tr with
  | [] => []
  | Issued r :: tr' => r :: issued_before_any_settles tr'
  | Settled _ _ :: _ => []
  | Navigated _ :: tr' => issued_before_any_settles tr'
  | RenderThrew _ :: tr' => issued_before_any_settles tr'
  end.

(** The exceptions a trace shows thrown while rendering, in order. *)
Fixpoint render_errors (tr : list event) : list exn :=
  match tr with
  | [] => []
  | RenderThrew e :: tr' => e :: render_errors tr'
  | _ :: tr' => render_errors tr'
  end.

(* ===================================================================== *)
(** ** [UploadPage] *)
(* ===================================================================== *)

Module UploadPage.

(** The four [useState] cells of the component. A file cell holds a
    [File], or [null] (or [undefined], after an emptied pick): [None]. *)
Record State : Type :=
  { audioFile : option File;
    pitchFile : option File;
    loading : bool;
    error : jsstring }.

Definition initial : State :=
  {| audioFile := None; pitchFile := None; loading := false; error := [] |}.

Definition setAudioFile (f : option File) : proc State unit :=
  set_state (fun s => {| audioFile := f; pitchFile := pitchFile s;
                         loading := loading s; error := error s |}).

Definition setPitchFile (f : option File) : proc State unit :=
  set_state (fun s => {| audioFile := audioFile s; pitchFile := f;
                         loading := loading s; error := error s |}).

Definition setLoading (b : bool) : proc State unit :=
  set_state (fun s => {| audioFile := audioFile s; pitchFile := pitchFile s;
                         loading := b; error := error s |}).

Definition setError (msg : jsstring) : proc State unit :=
  set_state (fun s => {| audioFile := audioFile s; pitchFile := pitchFile s;
                         loading := loading s; error := msg |}).

(** The request of [fetch(`${API_BASE_URL}/upload`, {method: 'POST', body: formData})]. *)
Definition upload_request (formData : list (jsstring * File)) : request :=
  {| req_method := POST;
     req_url := API_BASE_URL ++ lit "/upload";
     req_headers := [];
     req_body := FormData formData |}.

Section Handlers.
Context {conv : NumberConversions}.

(** [handleSubmit], as created by the render of state [props]: the
    closure reads [audioFile] and [pitchFile] from that render. *)
Definition handleSubmit (props : State) : proc State unit :=
  setError [] ;;
  match audioFile props, pitchFile props with
  | Some audio, Some pitch =>
      setLoading true ;;
      let formData := [(lit "audio", audio); (lit "pitch", pitch)] in
      try_catch_finally
        (res <- fetch (upload_request formData) ;;
         (if negb (res_ok res) then raise (Error (lit "Upload failed"))
          else ret tt) ;;
         data <- json res ;;
         conversation_id <- eval (get_prop data (lit "conversation_id")) ;;
         key <- eval (ToString (js_or conversation_id (VStr (lit "demo123")))) ;;
         navigate (lit "/review/" ++ key))
        (fun err => setError (lit "Upload failed. Please try again."))
        (setLoading false)
  | _, _ =>
      setError (lit "Please upload both audio and pitch files.")
  end.

(** A submit of the form shown for state [s], the upload settling as
    [env] says. *)
Definition submit (env : request -> fetch_result) (s : State)
  : State * list event * completion unit :=
  run env (handleSubmit s) s.
End Handlers.

(** The [onChange] of the two file inputs:
    [e => setAudioFile(e.target.files[0])] and its pitch twin, [files]
    being the input's file list; [files[0]] of an empty list is
    [undefined]. *)
Definition onAudioChange (files : list File) : proc State unit :=
  setAudioFile (nth_error files 0).

Definition onPitchChange (files : list File) : proc State unit :=
  setPitchFile (nth_error files 0).

(** What the returned JSX shows of the state: the error line (present
    when [error] is truthy), and the submit button. *)
Record View : Type :=
  { error_banner : option jsstring;
    submit_disabled : bool;
    submit_label : jsstring }.

Definition render (s : State) : View :=
  {| error_banner := if ToBoolean (VStr (error s)) then Some (error s) else None;
     submit_disabled := loading s;
     submit_label := if loading s then lit "Uploading..."
                     else lit "Upload & Analyze" |}.

End UploadPage.

(* ===================================================================== *)
(** ** [ReviewPage] *)
(* ===================================================================== *)

Module ReviewPage.

Inductive Role : Type := user | assistant.

(** An entry of [chatHistory]: [{ role, content }]. *)
Record ChatMessage : Type := { role : Role; content : jsval }.

(** The [useState] cells of the component. The cells filled from
    responses hold whatever value the response carried. *)
Record State : Type :=
  { transcript : jsval;
    audioUrl : jsval;
    pitch : jsval;
    suggestions : jsval;
    loading : bool;
    error : jsstring;
    chatInput : jsstring;
    chatHistory : list ChatMessage;
    chatLoading : bool;
    searchInput : jsstring;
    searchResults : jsval;
    searchLoading : bool }.

Definition initial : State :=
  {| transcript := VArr []; audioUrl := VStr []; pitch := VArr [];
     suggestions := VArr []; loading := true; error := [];
     chatInput := []; chatHistory := []; chatLoading := false;
     searchInput := []; searchResults := VArr []; searchLoading := false |}.

Definition setTranscript (v : jsval) : proc State unit :=
  set_state (fun s =>
    {| transcript := v; audioUrl := audioUrl s; pitch := pitch s;
       suggestions := suggestions s; loading := loading s; error := error s;
       chatInput := chatInput s; chatHistory := chatHistory s;
       chatLoading := chatLoading s; searchInput := searchInput s;
       searchResults := searchResults s; searchLoading := searchLoading s |}).

Definition setAudioUrl (v : jsval) : proc State unit :=
  set_state (fun s =>
    {| transcript := transcript s; audioUrl := v; pitch := pitch s;
       suggestions := suggestions s; loading := loading s; error := error s;
       chatInput := chatInput s; chatHistory := chatHistory s;
       chatLoading := chatLoading s; searchInput := searchInput s;
       searchResults := searchResults s; searchLoading := searchLoading s |}).

Definition setPitch (v : jsval) : proc State unit :=
  set_state (fun s =>
    {| transcript := transcript s; audioUrl := audioUrl s; pitch := v;
       suggestions := suggestions s; loading := loading s; error := error s;
       chatInput := chatInput s; chatHistory := chatHistory s;
       chatLoading := chatLoading s; searchInput := searchInput s;
       searchResults := searchResults s; searchLoading := searchLoading s |}).

Definition setSuggestions (v : jsval) : proc State unit :=
  set_state (fun s =>
    {| transcript := transcript s; audioUrl := audioUrl s; pitch := pitch s;
       suggestions := v; loading := loading s; error := error s;
       chatInput := chatInput s; chatHistory := chatHistory s;
       chatLoading := chatLoading s; searchInput := searchInput s;
       searchResults := searchResults s; searchLoading := searchLoading s |}).

Definition setLoading (b : bool) : proc State unit :=
  set_state (fun s =>
    {| transcript := transcript s; audioUrl := audioUrl s; pitch := pitch s;
       suggestions := suggestions s; loading := b; error := error s;
       chatInput := chatInput s; chatHistory := chatHistory s;
       chatLoading := chatLoading s; searchInput := searchInput s;
       searchResults := searchResults s; searchLoading := searchLoading s |}).

Definition setError (msg : jsstring) : proc State unit :=
  set_state (fun s =>
    {| transcript := transcript s; audioUrl := audioUrl s; pitch := pitch s;
       suggestions := suggestions s; loading := loading s; error := msg;
       chatInput := chatInput s; chatHistory := chatHistory s;
       chatLoading := chatLoading s; searchInput := searchInput s;
       searchResults := searchResults s; searchLoading := searchLoading s |}).

Definition setChatInput (v : jsstring) : proc State unit :=
  set_state (fun s =>
    {| transcript := transcript s; audioUrl := audioUrl s; pitch := pitch s;
       suggestions := suggestions s; loading := loading s; error := error s;
       chatInput := v; chatHistory := chatHistory s;
       chatLoading := chatLoading s; searchInput := searchInput s;
       searchResults := searchResults s; searchLoading := searchLoading s |}).

(** [setChatHistory(f)], the functional form: [f] is applied to the
    history held when the update is processed. *)
Definition setChatHistory (f : list ChatMessage -> list ChatMessage)
  : proc State unit :=
  set_state (fun s =>
    {| transcript := transcript s; audioUrl := audioUrl s; pitch := pitch s;
       suggestions := suggestions s; loading := loading s; error := error s;
       chatInput := chatInput s; chatHistory := f (chatHistory s);
       chatLoading := chatLoading s; searchInput := searchInput s;
       searchResults := searchResults s; searchLoading := searchLoading s |}).

(** [setChatHistory(f)] for an updater [f] whose body can throw. *)
Definition setChatHistoryFn
  (f : list ChatMessage -> completion (list ChatMessage)) : proc State unit :=
  set_state_fn (fun s =>
    h <- f (chatHistory s) ;;
    ret {| transcript := transcript s; audioUrl := audioUrl s; pitch := pitch s;
           suggestions := suggestions s; loading := loading s; error := error s;
           chatInput := chatInput s; chatHistory := h;
           chatLoading := chatLoading s; searchInput := searchInput s;
           searchResults := searchResults s; searchLoading := searchLoading s |}).

Definition setChatLoading (b : bool) : proc State unit :=
  set_state (fun s =>
    {| transcript := transcript s; audioUrl := audioUrl s; pitch := pitch s;
       suggestions := suggestions s; loading := loading s; error := error s;
       chatInput := chatInput s; chatHistory := chatHistory s;
       chatLoading := b; searchInput := searchInput s;
       searchResults := searchResults s; searchLoading := searchLoading s |}).

Definition setSearchInput (v : jsstring) : proc State unit :=
  set_state (fun s =>
    {| transcript := transcript s; audioUrl := audioUrl s; pitch := pitch s;
       suggestions := suggestions s; loading := loading s; error := error s;
       chatInput := chatInput s; chatHistory := chatHistory s;
       chatLoading := chatLoading s; searchInput := v;
       searchResults := searchResults s; searchLoading := searchLoading s |}).

Definition setSearchResults (v : jsval) : proc State unit :=
  set_state (fun s =>
    {| transcript := transcript s; audioUrl := audioUrl s; pitch := pitch s;
       suggestions := suggestions s; loading := loading s; error := error s;
       chatInput := chatInput s; chatHistory := chatHistory s;
       chatLoading := chatLoading s; searchInput := searchInput s;
       searchResults := v; searchLoading := searchLoading s |}).

Definition setSearchLoading (b : bool) : proc State unit :=
  set_state (fun s =>
    {| transcript := transcript s; audioUrl := audioUrl s; pitch := pitch s;
       suggestions := suggestions s; loading := loading s; error := error s;
       chatInput := chatInput s; chatHistory := chatHistory s;
       chatLoading := chatLoading s; searchInput := searchInput s;
       searchResults := searchResults s; searchLoading := b |}).

(** [fetch(url)] *)
Definition get_request (url : jsstring) : request :=
  {| req_method := GET; req_url := url; req_headers := []; req_body := NoBody |}.

(** [fetch(url, {method: 'POST', headers: {'Content-Type':
    'application/json'}, body: JSON.stringify(payload)})] *)
Definition post_json_request (url : jsstring) (payload : jsval) : request :=
  {| req_method := POST; req_url := url;
     req_headers := [(lit "Content-Type", lit "application/json")];
     req_body := JsonBody payload |}.

Definition transcript_request (conversationId : jsstring) : request :=
  get_request (API_BASE_URL ++ lit "/transcript/" ++ conversationId).

Definition pitch_request (conversationId : jsstring) : request :=
  get_request (API_BASE_URL ++ lit "/pitch/" ++ conversationId).

Definition suggestions_request (conversationId : jsstring) : request :=
  get_request (API_BASE_URL ++ lit "/suggestions/" ++ conversationId).

Definition chat_request (conversationId message : jsstring) : request :=
  post_json_request (API_BASE_URL ++ lit "/chat/" ++ conversationId)
    (VObj [(lit "message", VStr message)]).

Definition search_request (conversationId query : jsstring) : request :=
  post_json_request (API_BASE_URL ++ lit "/search/" ++ conversationId)
    (VObj [(lit "query", VStr query)]).

(** [fetchData], the function the effect runs for [conversationId]. *)
Definition fetchData (conversationId : jsstring) : proc State unit :=
  setLoading true ;;
  setError [] ;;
  try_catch_finally
    (tRes <- fetch (transcript_request conversationId) ;;
     tData <- json tRes ;;
     t <- eval (get_prop tData (lit "transcript")) ;;
     setTranscript (js_or t (VArr [])) ;;
     a <- eval (get_prop tData (lit "audio_url")) ;;
     setAudioUrl (js_or a (VStr [])) ;;
     pRes <- fetch (pitch_request conversationId) ;;
     pData <- json pRes ;;
     p <- eval (get_prop pData (lit "pitch")) ;;
     setPitch (js_or p (VArr [])) ;;
     sRes <- fetch (suggestions_request conversationId) ;;
     sData <- json sRes ;;
     g <- eval (get_prop sData (lit "suggestions")) ;;
     setSuggestions (js_or g (VArr [])))
    (fun err => setError (lit "Failed to load review data."))
    (setLoading false).

(** [handleChatSubmit], as created by the render of state [props]: the
    closure reads [chatInput] from that render. The updater of the
    success path reads [data.response] in its body, so the read happens
    when React runs the updater, not inside the [try]. *)
Definition handleChatSubmit (conversationId : jsstring) (props : State)
  : proc State unit :=
  if negb (ToBoolean (VStr (trim (chatInput props)))) then ret tt
  else
    setChatLoading true ;;
    setChatHistory (fun h =>
      h ++ [{| role := user; content := VStr (chatInput props) |}]) ;;
    try_catch_finally
      (res <- fetch (chat_request conversationId (chatInput props)) ;;
       data <- json res ;;
       setChatHistoryFn (fun h =>
         reply <- get_prop data (lit "response") ;;
         ret (h ++ [{| role := assistant;
                       content := js_or reply (VStr (lit "No response.")) |}])))
      (fun _ =>
         setChatHistory (fun h =>
           h ++ [{| role := assistant;
                    content := VStr (lit "Error getting response.") |}]))
      (setChatInput [] ;; setChatLoading false).

(** [handleSearchSubmit], as created by the render of state [props]. *)
Definition handleSearchSubmit (conversationId : jsstring) (props : State)
  : proc State unit :=
  if negb (ToBoolean (VStr (trim (searchInput props)))) then ret tt
  else
    setSearchLoading true ;;
    try_catch_finally
      (res <- fetch (search_request conversationId (searchInput props)) ;;
       data <- json res ;;
       results <- eval (get_prop data (lit "results")) ;;
       setSearchResults (js_or results (VArr [])))
      (fun _ => setSearchResults (VArr []))
      (setSearchLoading false).

(** The [<audio>] element behind [audioRef], as far as the component
    acts on it: the value given as its [src], its [currentTime], and
    whether [play()] has been called. What the browser then does (the
    seek within the media's range, the start of playback) is outside the
    model. *)
Record HTMLAudioElement : Type :=
  { src : jsval;
    currentTime : jsval;
    playing : bool }.

Definition play (a : HTMLAudioElement) : HTMLAudioElement :=
  {| src := src a; currentTime := currentTime a; playing := true |}.

(** A list area of the page: its placeholder line, or one child per
    item. A child is the value placed in the JSX; how React prints a
    value is outside the model. *)
Inductive Listing : Type :=
| Placeholder (text : jsstring)
| Items (children : list jsval).

(** A line of the chat area: its class, its speaker label, its text. *)
Record ChatLine : Type :=
  { line_class : jsstring;
    speaker : jsstring;
    line_content : jsval }.

(** A search result as shown: the [result] its button's [onClick]
    closes over, the button label [result.timestamp] and the text
    [result.text]. *)
Record SearchHit : Type :=
  { hit_result : jsval;
    hit_label : jsval;
    hit_text : jsval }.

(** The fragment under [!loading && !error]. *)
Record Content : Type :=
  { audio_src : option jsval;
    transcript_view : Listing;
    pitch_view : Listing;
    suggestions_view : Listing;
    chat_placeholder : bool;
    chat_lines : list ChatLine;
    chat_input_value : jsstring;
    chat_disabled : bool;
    chat_button : jsstring;
    search_input_value : jsstring;
    search_disabled : bool;
    search_button : jsstring;
    search_placeholder : bool;
    search_hits : list SearchHit }.

(** What the returned JSX shows: the loading line, the error line, and
    the fragment with the content. *)
Record View : Type :=
  { loading_indicator : bool;
    error_banner : option jsstring;
    fragment : option Content }.

Fixpoint map_completion {A B} (f : A -> completion B) (l : list A)
  : completion (list B) :=
  match l with
  | [] => Normal []
  | x :: l' =>
      y <- f x ;;
      ys <- map_completion f l' ;;
      ret (y :: ys)
  end.

Definition render_chat_line (msg : ChatMessage) : ChatLine :=
  match role msg with
  | user => {| line_class := lit "text-blue-700"; speaker := lit "You";
               line_content := content msg |}
  | assistant => {| line_class := lit "text-green-700"; speaker := lit "Coach";
                    line_content := content msg |}
  end.

Definition render_hit (result : jsval) : completion SearchHit :=
  label <- get_prop result (lit "timestamp") ;;
  text <- get_prop result (lit "text") ;;
  ret {| hit_result := result; hit_label := label; hit_text := text |}.

(** [searchResults.length === 0 && ...] followed by
    [searchResults.map(...)]: only an array has a [map] to call. *)
Definition render_search (v : jsval) : completion (bool * list SearchHit) :=
  match v with
  | VArr items =>
      hits <- map_completion render_hit items ;;
      ret (match items with [] => true | _ => false end, hits)
  | _ => Abrupt TypeError
  end.

Section Render.
Context {conv : NumberConversions}.

(** [a.currentTime = seconds]: the attribute is a [double], so the value
    is converted by [ToNumber] and the assignment throws a [TypeError]
    when the result is not finite ([NaN] or an infinity). *)
Definition set_currentTime (seconds : jsval) (a : HTMLAudioElement)
  : completion HTMLAudioElement :=
  n <- ToNumber seconds ;;
  if PrimFloat.is_finite n then
    ret {| src := src a; currentTime := VNum n; playing := playing a |}
  else Abrupt TypeError.

(** [jumpToTimestamp(seconds)] on [audioRef.current], which is [null]
    ([None]) while no [<audio>] element is mounted. The result is
    [audioRef.current] afterwards. *)
Definition jumpToTimestamp (seconds : jsval)
  (audioRef_current : option HTMLAudioElement)
  : completion (option HTMLAudioElement) :=
  match audioRef_current with
  | Some a =>
      a' <- set_currentTime seconds a ;;
      ret (Some (play a'))
  | None => ret None
  end.

(** The [onClick] of a result's button:
    [() => jumpToTimestamp(result.timestamp)]. *)
Definition activate (h : SearchHit)
  (audioRef_current : option HTMLAudioElement)
  : completion (option HTMLAudioElement) :=
  seconds <- get_prop (hit_result h) (lit "timestamp") ;;
  jumpToTimestamp seconds audioRef_current.

(** [v.length > 0] *)
Definition length_gt_zero (v : jsval) : completion bool :=
  match v with
  | VUndef | VNull => Abrupt TypeError
  | VArr [] | VStr [] => Normal false
  | VArr (_ :: _) | VStr (_ :: _) => Normal true
  | VObj props => gt_zero (own_property props (lit "length"))
  | VBool _ | VNum _ => Normal false
  end.

(** [v.length > 0 ? v.map(child) : <placeholder>] *)
Definition render_list (v : jsval) (child : jsval -> completion jsval)
  (placeholder : jsstring) : completion Listing :=
  nonempty <- length_gt_zero v ;;
  if (nonempty : bool) then
    match v with
    | VArr items =>
        children <- map_completion child items ;;
        ret (Items children)
    | _ => Abrupt TypeError
    end
  else ret (Placeholder placeholder).

Definition render_content (s : State) : completion Content :=
  let audio := if ToBoolean (audioUrl s) then Some (audioUrl s) else None in
  lines <- render_list (transcript s) (fun line => get_prop line (lit "text"))
             (lit "No transcript available.") ;;
  steps <- render_list (pitch s) (fun step => Normal step)
             (lit "No pitch steps available.") ;;
  tips <- render_list (suggestions s) (fun s0 => Normal s0)
            (lit "No suggestions available.") ;;
  found <- render_search (searchResults s) ;;
  ret {| audio_src := audio;
         transcript_view := lines;
         pitch_view := steps;
         suggestions_view := tips;
         chat_placeholder := match chatHistory s with [] => true | _ => false end;
         chat_lines := List.map render_chat_line (chatHistory s);
         chat_input_value := chatInput s;
         chat_disabled := chatLoading s;
         chat_button := if chatLoading s then lit "..." else lit "Send";
         search_input_value := searchInput s;
         search_disabled := searchLoading s;
         search_button := if searchLoading s then lit "..." else lit "Search";
         search_placeholder := fst found;
         search_hits := snd found |}.

(** The JSX [ReviewPage] returns for state [s]; [Abrupt] when
    evaluating it throws. *)
Definition render (s : State) : completion View :=
  let banner := if ToBoolean (VStr (error s)) then Some (error s) else None in
  if negb (loading s) && negb (ToBoolean (VStr (error s))) then
    c <- render_content s ;;
    ret {| loading_indicator := loading s; error_banner := banner;
           fragment := Some c |}
  else
    ret {| loading_indicator := loading s; error_banner := banner;
           fragment := None |}.

(** [audioRef.current] once React has committed a render: the mounted
    [<audio>] element, kept from the previous commit when there was
    one, or [null] when the render shows none. *)
Definition commit_audioRef (rendered : completion View)
  (previous : option HTMLAudioElement) : option HTMLAudioElement :=
  match rendered with
  | Normal v =>
      match fragment v with
      | Some c =>
          match audio_src c, previous with
          | Some url, Some a =>
              Some {| src := url; currentTime := currentTime a;
                      playing := playing a |}
          | Some url, None =>
              Some {| src := url; currentTime := VNum 0; playing := false |}
          | None, _ => None
          end
      | None => None
      end
  | Abrupt _ => None
  end.
End Render.

(** The effect of mounting with [conversationId] in state [s]: the data
    load, every request settling as [env] says. *)
Definition load (env : request -> fetch_result) (conversationId : jsstring)
  (s : State) : State * list event * completion unit :=
  run env (fetchData conversationId) s.

(** A submit of the chat form shown for state [s]. *)
Definition chat_submit (env : request -> fetch_result)
  (conversationId : jsstring) (s : State)
  : State * list event * completion unit :=
  run env (handleChatSubmit conversationId s) s.

(** A submit of the search form shown for state [s]. *)
Definition search_submit (env : request -> fetch_result)
  (conversationId : jsstring) (s : State)
  : State * list event * completion unit :=
  run env (handleSearchSubmit conversationId s) s.

End ReviewPage.

(* ===================================================================== *)
(** ** Vocabulary of the properties *)
(* ===================================================================== *)

(** [undefined] or [null]: the values whose properties cannot be read. *)
Definition nullish (v : jsval) : bool :=
  match v with
  | VUndef | VNull => true
  | _ => false
  end.

(** A call that fails by a network error or by a body that is not JSON. *)
Definition call_fails (o : fetch_result) : bool :=
  match o with
  | NetworkError => true
  | Response res =>
      match res_body res with
      | None => true
      | Some _ => false
      end
  end.

(** An upload call that fails: as [call_fails], or by a status outside
    200-299. *)
Definition upload_call_fails (o : fetch_result) : bool :=
  match o with
  | NetworkError => true
  | Response res => negb (res_ok res) || call_fails o
  end.

(** A call whose response body is read as a JSON value other than
    [null], whatever the status. *)
Definition body_read (o : fetch_result) : bool :=
  match o with
  | NetworkError => false
  | Response res =>
      match res_body res with
      | None => false
      | Some data => negb (nullish data)
      end
  end.

(** An upload answered with a body whose [conversation_id] (or the
    fallback in its place) cannot be made a string: the template literal
    throws. *)
Definition key_not_printable {conv : NumberConversions} (o : fetch_result)
  : bool :=
  match o with
  | NetworkError => false
  | Response res =>
      match res_body res with
      | None => false
      | Some data =>
          match get_prop data (lit "conversation_id") with
          | Abrupt _ => false
          | Normal v =>
              match ToString (js_or v (VStr (lit "demo123"))) with
              | Abrupt _ => true
              | Normal _ => false
              end
          end
      end
  end.

(** A value that is neither an array nor an object: a string, a number,
    a boolean, [null] or [undefined]. React prints the first two when
    they are placed as a child and prints nothing for the others. *)
Definition primitive (v : jsval) : bool :=
  match v with
  | VArr _ | VObj _ => false
  | _ => true
  end.

Definition listing_primitive (l : ReviewPage.Listing) : bool :=
  match l with
  | ReviewPage.Placeholder _ => true
  | ReviewPage.Items children => forallb primitive children
  end.

(** Every value placed as a child in the content is a primitive. *)
Definition children_primitive (c : ReviewPage.Content) : bool :=
  listing_primitive (ReviewPage.transcript_view c)
  && listing_primitive (ReviewPage.pitch_view c)
  && listing_primitive (ReviewPage.suggestions_view c)
  && forallb (fun l => primitive (ReviewPage.line_content l))
       (ReviewPage.chat_lines c)
  && forallb (fun h => primitive (ReviewPage.hit_label h)
                       && primitive (ReviewPage.hit_text h))
       (ReviewPage.search_hits c).

(** The [response] field a chat call carries, when its body can be
    read, and whether what it carries can be printed as a child. *)
Definition carried_response (o : fetch_result) : option jsval :=
  match o with
  | NetworkError => None
  | Response res =>
      match res_body res with
      | None => None
      | Some data =>
          match get_prop data (lit "response") with
          | Normal v => Some v
          | Abrupt _ => None
          end
      end
  end.

Definition response_primitive (o : fetch_result) : bool :=
  match carried_response o with
  | Some v => primitive v
  | None => true
  end.

(** A response with the given status whose body parses to [data]. *)
Definition json_response (status : Z) (data : jsval) : fetch_result :=
  Response {| res_status := status; res_body := Some data |}.

(** A network that answers every request with [o]. *)
Definition always (o : fetch_result) : request -> fetch_result := fun _ => o.

(** The pair of number conversions that answers NaN on every input; it
    stands for the language's pair in concrete runs that convert no
    number. *)
Definition nan_conversions : NumberConversions :=
  {| Number_toString := fun _ => lit "NaN";
     StringToNumber := fun _ => PrimFloat.nan |}.

(** A file of each kind and the upload state with both picked. *)
Definition sample_audio : File :=
  {| file_name := lit "call.mp3"; file_bytes := [73; 68; 51]%N |}.

Definition sample_pitch : File :=
  {| file_name := lit "pitch.txt"; file_bytes := [104; 105]%N |}.

Definition both_selected : UploadPage.State :=
  {| UploadPage.audioFile := Some sample_audio;
     UploadPage.pitchFile := Some sample_pitch;
     UploadPage.loading := false;
     UploadPage.error := [] |}.

(** A network for the review page of [conversationId]: the transcript,
    pitch and suggestions requests settle as [t], [p] and [g], any other
    request as a network failure. *)
Definition review_network (conversationId : jsstring) (t p g : fetch_result)
  : request -> fetch_result :=
  fun r =>
    if jsstring_eqb (req_url r)
         (req_url (ReviewPage.transcript_request conversationId)) then t
    else if jsstring_eqb (req_url r)
              (req_url (ReviewPage.pitch_request conversationId)) then p
    else if jsstring_eqb (req_url r)
              (req_url (ReviewPage.suggestions_request conversationId)) then g
    else NetworkError.

(** A call answered with a body that is the JSON text [null]. *)
Definition null_body (o : fetch_result) : bool :=
  match o with
  | NetworkError => false
  | Response res =>
      match res_body res with
      | None => false
      | Some data => nullish data
      end
  end.

(** The review state in which the user has typed [text] in the chat
    input, and the one with [text] in the search input. *)
Definition typed_in_chat (text : jsstring) : ReviewPage.State :=
  final_state
    (run (always NetworkError)
       (ReviewPage.setLoading false ;; ReviewPage.setChatInput text)
       ReviewPage.initial).

Definition typed_in_search (text : jsstring) : ReviewPage.State :=
  final_state
    (run (always NetworkError)
       (ReviewPage.setLoading false ;; ReviewPage.setSearchInput text)
       ReviewPage.initial).

(** The review state after a search for "price" has returned one
    result at second 42, with the audio of the call loaded. *)
Definition price_result : jsval :=
  VObj [(lit "timestamp", VNum 42); (lit "text", VStr (lit "price objection"))].

Definition found_price : ReviewPage.State :=
  final_state
    (run (always NetworkError)
       (ReviewPage.setLoading false ;;
        ReviewPage.setAudioUrl (VStr (lit "https://cdn.example/call.mp3")) ;;
        ReviewPage.setSearchInput (lit "price") ;;
        ReviewPage.setSearchResults (VArr [price_result]))
       ReviewPage.initial).

(** The same with [audio_url: true] loaded: the value is truthy, so the
    [<audio>] element is rendered, with [src={true}]; React leaves out an
    attribute given a boolean, and the element is mounted without a
    source. *)
Definition found_price_unsourced : ReviewPage.State :=
  final_state
    (run (always NetworkError)
       (ReviewPage.setLoading false ;;
        ReviewPage.setAudioUrl (VBool true) ;;
        ReviewPage.setSearchInput (lit "price") ;;
        ReviewPage.setSearchResults (VArr [price_result]))
       ReviewPage.initial).

(** A search result that carries no [timestamp]. *)
Definition untimed_result : jsval :=
  VObj [(lit "text", VStr (lit "no timestamp"))].

(** An audio element that plays the call, paused at its start. *)
Definition call_audio : ReviewPage.HTMLAudioElement :=
  {| ReviewPage.src := VStr (lit "https://cdn.example/call.mp3");
     ReviewPage.currentTime := VNum 0;
     ReviewPage.playing := false |}.

Arguments lit : simpl never.
Arguments get_prop : simpl never.

(** Replaces the outcome [env r] met in the goal by the one hypothesis
    [H] gives for that request. *)
Ltac settle_with H :=
  match type of H with
  | ?env _ = ?o =>
      match goal with
      | |- context [env ?r] =>
          replace (env r) with o by (symmetry; exact H)
      end
  end.

(* ===================================================================== *)
(** ** Properties of [UploadPage] *)
(* ===================================================================== *)

Section UploadPageProperties.
Import UploadPage.
Context {conv : NumberConversions}.

(** C2. A submit with the audio file or the pitch file (or both)
    unselected issues no network call (nothing at all happens on the
    network or the router), and sets the validation message, which the
    page shows. *)
Theorem submit_without_both_files (env : request -> fetch_result) (s : State) :
  audioFile s = None \/ pitchFile s = None ->
  let r := submit env s in
  trace r = [] /\
  error (final_state r) = lit "Please upload both audio and pitch files." /\
  error_banner (render (final_state r))
    = Some (lit "Please upload both audio and pitch files.").
Proof.
  intros H. unfold submit, handleSubmit.
  destruct s as [a p l e]; simpl in H.
  destruct H as [-> | ->]; [| destruct a]; repeat split.
Qed.

(** C7. A submit whose upload call fails (status outside 200-299,
    network failure, or a body that is not JSON) sets the generic error
    message, which the page shows, navigates nowhere, and leaves both
    selected files as they were; the one call issued is the upload. *)
Theorem submit_upload_failure (env : request -> fetch_result) (s : State)
  (audio pitch : File) :
  audioFile s = Some audio ->
  pitchFile s = Some pitch ->
  upload_call_fails
    (env (upload_request [(lit "audio", audio); (lit "pitch", pitch)])) = true ->
  let r := submit env s in
  error (final_state r) = lit "Upload failed. Please try again." /\
  error_banner (render (final_state r))
    = Some (lit "Upload failed. Please try again.") /\
  navigations (trace r) = [] /\
  audioFile (final_state r) = Some audio /\
  pitchFile (final_state r) = Some pitch /\
  loading (final_state r) = false /\
  issued (trace r)
    = [upload_request [(lit "audio", audio); (lit "pitch", pitch)]].
Proof.
  intros Ha Hp Hf. unfold submit, handleSubmit.
  destruct s as [a p l e]; simpl in Ha, Hp; subst a p.
  cbn.
  destruct (env _) as [|res]; cbn.
  - repeat split.
  - simpl in Hf. destruct (res_ok res); simpl in Hf |- *.
    + unfold json. destruct (res_body res); [discriminate|].
      cbn. repeat split.
    + repeat split.
Qed.

(** C1, amended. With both files selected, a 2xx response whose body is
    a JSON value other than [null] makes the client call [navigate] with
    the path [/review/<conversation_id>] when that field is a non-empty
    string, and with [/review/demo123] when the field is missing or is
    the empty string; in both cases no error message is set and the
    loading flag is cleared. *)
Theorem submit_upload_success (env : request -> fetch_result) (s : State)
  (audio pitch : File) (res : response) (data v : jsval) :
  audioFile s = Some audio ->
  pitchFile s = Some pitch ->
  env (upload_request [(lit "audio", audio); (lit "pitch", pitch)])
    = Response res ->
  res_ok res = true ->
  res_body res = Some data ->
  get_prop data (lit "conversation_id") = Normal v ->
  let r := submit env s in
  (forall id, v = VStr id -> id <> [] ->
     navigations (trace r) = [lit "/review/" ++ id] /\
     error (final_state r) = [] /\
     loading (final_state r) = false) /\
  (v = VUndef \/ v = VStr [] ->
     navigations (trace r) = [lit "/review/demo123"] /\
     error (final_state r) = [] /\
     loading (final_state r) = false).
Proof.
  intros Ha Hp He Hok Hb Hv. unfold submit, handleSubmit.
  destruct s as [a p l e]; simpl in Ha, Hp; subst a p.
  cbn. settle_with He. cbn. rewrite Hok. cbn.
  unfold json. rewrite Hb. cbn. rewrite Hv. cbn.
  split.
  - intros id -> Hne. destruct id as [|c id]; [congruence|].
    repeat split.
  - intros [-> | ->]; repeat split.
Qed.

End UploadPageProperties.

(** Witness of C2: no file picked at all. *)
Lemma submit_without_both_files_witness :
  trace (UploadPage.submit (conv := nan_conversions) (always NetworkError)
           UploadPage.initial) = [].
Proof.
  apply (submit_without_both_files (conv := nan_conversions)
           (always NetworkError) UploadPage.initial).
  left. reflexivity.
Defined.

(** Witness of C7: the service answers 500. *)
Lemma submit_upload_failure_witness :
  UploadPage.error
    (final_state
       (UploadPage.submit (conv := nan_conversions)
          (always (json_response 500 (VObj []))) both_selected))
  = lit "Upload failed. Please try again.".
Proof.
  apply (submit_upload_failure (conv := nan_conversions)
           (always (json_response 500 (VObj []))) both_selected
           (audio := sample_audio) (pitch := sample_pitch));
    reflexivity.
Defined.

(** Witness of C1, amended: the response [{conversation_id: "abc"}]. *)
Lemma submit_upload_success_witness :
  navigations
    (trace
       (UploadPage.submit (conv := nan_conversions)
          (always (json_response 200
                     (VObj [(lit "conversation_id", VStr (lit "abc"))])))
          both_selected))
  = [lit "/review/abc"].
Proof.
  refine (proj1 (proj1
            (submit_upload_success (conv := nan_conversions)
               (always (json_response 200
                          (VObj [(lit "conversation_id", VStr (lit "abc"))])))
               both_selected
               (audio := sample_audio) (pitch := sample_pitch)
               (res := {| res_status := 200;
                          res_body :=
                            Some (VObj [(lit "conversation_id",
                                         VStr (lit "abc"))]) |})
               (data := VObj [(lit "conversation_id", VStr (lit "abc"))])
               (v := VStr (lit "abc"))
               eq_refl eq_refl eq_refl eq_refl eq_refl eq_refl)
            (lit "abc") eq_refl _)).
  discriminate.
Defined.

(** C1 as stated fails on the response [{conversation_id: ""}], a 2xx
    JSON body whose [conversation_id] is a string: the client navigates
    to [/review/demo123], not to the review screen keyed by that
    string. *)
Lemma submit_upload_success_counterexample :
  let data := VObj [(lit "conversation_id", VStr [])] in
  let r := UploadPage.submit (conv := nan_conversions)
             (always (json_response 200 data)) both_selected in
  res_ok {| res_status := 200; res_body := Some data |} = true /\
  get_prop data (lit "conversation_id") = Normal (VStr []) /\
  navigations (trace r) = [lit "/review/demo123"] /\
  navigations (trace r) <> [lit "/review/" ++ []].
Proof.
  cbv zeta. repeat split. vm_compute. discriminate.
Qed.

(* ===================================================================== *)
(** ** Properties of [ReviewPage]: loading the review data *)
(* ===================================================================== *)

Lemma get_prop_nullish (v : jsval) (name : jsstring) :
  nullish v = true -> get_prop v name = Abrupt TypeError.
Proof. destruct v; simpl; intros H; try discriminate; reflexivity. Qed.

Lemma get_prop_defined (v : jsval) (name : jsstring) :
  nullish v = false -> exists x, get_prop v name = Normal x.
Proof. destruct v; simpl; intros H; try discriminate; eexists; reflexivity. Qed.

Lemma call_fails_not_read (o : fetch_result) :
  call_fails o = true -> body_read o = false.
Proof.
  destruct o as [|res]; simpl; [reflexivity|].
  destruct (res_body res); [discriminate | reflexivity].
Qed.

Section LoadProperties.
Import ReviewPage.
Context {conv : NumberConversions}.

(** The page in a state that holds an error message and is not loading:
    the error line alone. *)
Lemma render_error (s : State) (c : N) (msg : jsstring) :
  error s = c :: msg ->
  render s = Normal {| loading_indicator := loading s;
                       error_banner := Some (c :: msg);
                       fragment := None |}.
Proof.
  intros H. unfold render. rewrite H. simpl.
  rewrite andb_false_r. reflexivity.
Qed.

(** A load in which some body is not read ends with the error message
    set and the loading flag cleared. *)
Lemma load_not_read (env : request -> fetch_result) (id : jsstring) (s : State) :
  body_read (env (transcript_request id))
    && body_read (env (pitch_request id))
    && body_read (env (suggestions_request id)) = false ->
  error (final_state (load env id s)) = lit "Failed to load review data." /\
  loading (final_state (load env id s)) = false.
Proof.
  unfold load, fetchData, json. cbn.
  destruct (env (transcript_request id)) as [|tres]; cbn;
    [intros _; split; reflexivity|].
  destruct (res_body tres) as [tdata|]; cbn; [|intros _; split; reflexivity].
  destruct (nullish tdata) eqn:Nt; cbn.
  { rewrite (get_prop_nullish _ _ Nt). intros _; split; reflexivity. }
  destruct (get_prop_defined tdata (lit "transcript") Nt) as [t ->].
  destruct (get_prop_defined tdata (lit "audio_url") Nt) as [a ->]. cbn.
  destruct (env (pitch_request id)) as [|pres]; cbn;
    [intros _; split; reflexivity|].
  destruct (res_body pres) as [pdata|]; cbn; [|intros _; split; reflexivity].
  destruct (nullish pdata) eqn:Np; cbn.
  { rewrite (get_prop_nullish _ _ Np). intros _; split; reflexivity. }
  destruct (get_prop_defined pdata (lit "pitch") Np) as [p ->]. cbn.
  destruct (env (suggestions_request id)) as [|sres]; cbn;
    [intros _; split; reflexivity|].
  destruct (res_body sres) as [sdata|]; cbn; [|intros _; split; reflexivity].
  destruct (nullish sdata) eqn:Ns; cbn.
  { rewrite (get_prop_nullish _ _ Ns). intros _; split; reflexivity. }
  discriminate.
Qed.

(** C3. Whichever of the three fetches fails, by a network error or by
    a body that is not JSON, and whatever the other two return, the load
    ends with the one generic error message set; the page then shows
    that message and no content at all. *)
Theorem load_failure_shows_only_the_error (env : request -> fetch_result)
  (id : jsstring) (s : State) :
  call_fails (env (transcript_request id)) = true
  \/ call_fails (env (pitch_request id)) = true
  \/ call_fails (env (suggestions_request id)) = true ->
  let s' := final_state (load env id s) in
  error s' = lit "Failed to load review data." /\
  loading s' = false /\
  render s' = Normal {| loading_indicator := false;
                        error_banner := Some (lit "Failed to load review data.");
                        fragment := None |}.
Proof.
  intros H.
  assert (Hnr : body_read (env (transcript_request id))
                && body_read (env (pitch_request id))
                && body_read (env (suggestions_request id)) = false).
  { destruct H as [H | [H | H]]; apply call_fails_not_read in H; rewrite H.
    - reflexivity.
    - rewrite andb_false_r. reflexivity.
    - rewrite andb_false_r. reflexivity. }
  destruct (load_not_read env id s Hnr) as [He Hl].
  cbv zeta. repeat split; try assumption.
  rewrite (render_error _ He), Hl. reflexivity.
Qed.

(** C8, amended. The three fetches are issued one at a time, in the
    order transcript, pitch, suggestions: when the load starts only the
    transcript request is issued, and each later request is issued only
    once the previous one has completed with a body read as a JSON value
    other than [null]; after a fetch that does not, no further request
    is issued. *)
Theorem load_fetches_in_sequence (env : request -> fetch_result)
  (id : jsstring) (s : State) :
  trace (until_await (fetchData id) s) = [Issued (transcript_request id)] /\
  awaiting (outcome (until_await (fetchData id) s))
    = Some (transcript_request id) /\
  trace (load env id s)
  = Issued (transcript_request id)
    :: Settled (transcript_request id) (env (transcript_request id))
    :: (if body_read (env (transcript_request id)) then
          Issued (pitch_request id)
          :: Settled (pitch_request id) (env (pitch_request id))
          :: (if body_read (env (pitch_request id)) then
                [Issued (suggestions_request id);
                 Settled (suggestions_request id)
                   (env (suggestions_request id))]
              else [])
        else []).
Proof.
  split; [reflexivity|]. split; [reflexivity|].
  unfold load, fetchData. cbn.
  destruct (env (transcript_request id)) as [|tres]; cbn; [reflexivity|].
  unfold json at 1. destruct (res_body tres) as [tdata|]; cbn; [|reflexivity].
  destruct (nullish tdata) eqn:Nt; cbn.
  { rewrite (get_prop_nullish _ _ Nt). reflexivity. }
  destruct (get_prop_defined tdata (lit "transcript") Nt) as [t ->].
  destruct (get_prop_defined tdata (lit "audio_url") Nt) as [a ->]. cbn.
  destruct (env (pitch_request id)) as [|pres]; cbn; [reflexivity|].
  unfold json at 1. destruct (res_body pres) as [pdata|]; cbn; [|reflexivity].
  destruct (nullish pdata) eqn:Np; cbn.
  { rewrite (get_prop_nullish _ _ Np). reflexivity. }
  destruct (get_prop_defined pdata (lit "pitch") Np) as [p ->]. cbn.
  destruct (env (suggestions_request id)) as [|sres]; cbn; [reflexivity|].
  unfold json at 1. destruct (res_body sres) as [sdata|]; cbn; [|reflexivity].
  destruct (nullish sdata) eqn:Ns; cbn.
  { rewrite (get_prop_nullish _ _ Ns). reflexivity. }
  destruct (get_prop_defined sdata (lit "suggestions") Ns) as [g ->].
  reflexivity.
Qed.


End LoadProperties.

(** Witness of C3: the pitch fetch fails on the network, the other two
    answer 200 with JSON. *)
Lemma load_failure_shows_only_the_error_witness :
  ReviewPage.render (conv := nan_conversions)
    (final_state
       (ReviewPage.load
          (review_network (lit "abc")
             (json_response 200
                (VObj [(lit "transcript", VArr [VObj [(lit "text", VStr (lit "hi"))]])]))
             NetworkError
             (json_response 200
                (VObj [(lit "suggestions", VArr [VStr (lit "say X")])])))
          (lit "abc") ReviewPage.initial))
  = Normal {| ReviewPage.loading_indicator := false;
              ReviewPage.error_banner := Some (lit "Failed to load review data.");
              ReviewPage.fragment := None |}.
Proof.
  apply (load_failure_shows_only_the_error (conv := nan_conversions)
           (review_network (lit "abc")
              (json_response 200
                 (VObj [(lit "transcript", VArr [VObj [(lit "text", VStr (lit "hi"))]])]))
              NetworkError
              (json_response 200
                 (VObj [(lit "suggestions", VArr [VStr (lit "say X")])])))
           (lit "abc") ReviewPage.initial).
  right. left. reflexivity.
Defined.



(** C8 as stated fails on a load in which every request is answered 200
    with [{}]: before any request completes only the transcript request
    has been issued, and the pitch and suggestions requests are each
    issued after the completion of the request before them. *)
Lemma load_fetches_in_sequence_counterexample :
  let id := lit "abc" in
  let o := json_response 200 (VObj []) in
  let tr := trace (ReviewPage.load (always o) id ReviewPage.initial) in
  issued_before_any_settles tr = [ReviewPage.transcript_request id] /\
  ~ In (ReviewPage.pitch_request id) (issued_before_any_settles tr) /\
  ~ In (ReviewPage.suggestions_request id) (issued_before_any_settles tr) /\
  tr = [Issued (ReviewPage.transcript_request id);
        Settled (ReviewPage.transcript_request id) o;
        Issued (ReviewPage.pitch_request id);
        Settled (ReviewPage.pitch_request id) o;
        Issued (ReviewPage.suggestions_request id);
        Settled (ReviewPage.suggestions_request id) o].
Proof.
  cbv zeta. repeat split.
  - intros [H | []]. vm_compute in H. discriminate H.
  - intros [H | []]. vm_compute in H. discriminate H.
Qed.

(* ===================================================================== *)
(** ** Properties of [ReviewPage]: the chat *)
(* ===================================================================== *)

(** A handler suspended on a request, no updater having thrown so far,
    runs on, once the request has settled, as its continuation does from
    the state reached. *)
Lemma run_after_await {S A} (env : request -> fetch_result) (p : proc S A)
  (s : S) (r : request) :
  awaiting (outcome (until_await p s)) = Some r ->
  render_errors (trace (until_await p s)) = [] ->
  let u := until_await p s in
  let rest := run env (resume (outcome u) (env r)) (final_state u) in
  final_state (run env p s) = final_state rest /\
  trace (run env p s) = trace u ++ Settled r (env r) :: trace rest /\
  outcome (run env p s) = outcome rest.
Proof.
  revert s. induction p as [a|e|f k IH|u k IH|path k IH|r0 k IH];
    intros s; simpl.
  - discriminate.
  - discriminate.
  - apply IH.
  - destruct (u s) as [s'|e]; [apply IH|].
    unfold final_state, trace, outcome.
    destruct (until_await k s) as [[s1 tr1] w]. simpl. discriminate.
  - specialize (IH s). unfold final_state, trace, outcome in *.
    destruct (until_await k s) as [[s1 tr1] w].
    destruct (run env k s) as [[s2 tr2] c2]. simpl in *.
    intros Hw He. destruct (IH Hw He) as (H1 & H2 & H3).
    repeat split; [assumption | | assumption]. rewrite H2. reflexivity.
  - intros [= <-] _. unfold final_state, trace, outcome. simpl.
    destruct (run env (k (env r0)) s) as [[s2 tr2] c2]. repeat split.
Qed.

Lemma call_fails_not_null (o : fetch_result) :
  call_fails o = true -> null_body o = false.
Proof.
  destruct o as [|res]; simpl; [reflexivity|].
  destruct (res_body res); [discriminate | reflexivity].
Qed.

Section ChatProperties.
Import ReviewPage.

(** With a non-blank input the handler issues the chat request, having
    appended the user entry, and waits. *)
Lemma chat_pending (id : jsstring) (s : State) :
  trim (chatInput s) <> [] ->
  let u := until_await (handleChatSubmit id s) s in
  trace u = [Issued (chat_request id (chatInput s))] /\
  awaiting (outcome u) = Some (chat_request id (chatInput s)) /\
  chatHistory (final_state u)
  = chatHistory s ++ [{| role := user; content := VStr (chatInput s) |}].
Proof.
  intros Hne. unfold handleChatSubmit.
  destruct (trim (chatInput s)) as [|c rest]; [congruence|].
  repeat split.
Qed.

(** The rest of the handler after a call that failed, in whatever state
    [s2] the page is when the call settles: the error entry is appended,
    the input and the sending flag are cleared, nothing is called. *)
Lemma chat_settles_failed (env : request -> fetch_result) (id : jsstring)
  (s : State) (o : fetch_result) (s2 : State) :
  trim (chatInput s) <> [] ->
  call_fails o = true ->
  let r := run env (resume (outcome (until_await (handleChatSubmit id s) s)) o)
             s2 in
  trace r = [] /\
  chatHistory (final_state r)
  = chatHistory s2
    ++ [{| role := assistant; content := VStr (lit "Error getting response.") |}] /\
  chatInput (final_state r) = [] /\
  chatLoading (final_state r) = false.
Proof.
  intros Hne Hf. unfold handleChatSubmit.
  destruct (trim (chatInput s)) as [|c rest]; [congruence|].
  cbn. unfold json.
  destruct o as [|res]; cbn; [repeat split|].
  simpl in Hf. destruct (res_body res); [discriminate|].
  cbn. repeat split.
Qed.

(** The same after a call answered with a body whose [response] can be
    read: the entry appended is the field, or the fallback when the
    field is falsy. *)
Lemma chat_settles_answered (env : request -> fetch_result) (id : jsstring)
  (s : State) (res : response) (data v : jsval) (s2 : State) :
  trim (chatInput s) <> [] ->
  res_body res = Some data ->
  get_prop data (lit "response") = Normal v ->
  let r := run env
             (resume (outcome (until_await (handleChatSubmit id s) s))
                (Response res)) s2 in
  trace r = [] /\
  chatHistory (final_state r)
  = chatHistory s2
    ++ [{| role := assistant;
           content := if ToBoolean v then v else VStr (lit "No response.") |}] /\
  chatInput (final_state r) = [] /\
  chatLoading (final_state r) = false.
Proof.
  intros Hne Hb Hv. unfold handleChatSubmit.
  destruct (trim (chatInput s)) as [|c rest]; [congruence|].
  cbn. unfold json. rewrite Hb. cbn. rewrite Hv. cbn.
  repeat split.
Qed.

(** The same after a call answered with the JSON text [null]: the
    updater throws when React runs it, outside the [try]; no entry is
    appended and the page is taken down in the state it was in. *)
Lemma chat_settles_null (env : request -> fetch_result) (id : jsstring)
  (s : State) (o : fetch_result) (s2 : State) :
  trim (chatInput s) <> [] ->
  null_body o = true ->
  let r := run env (resume (outcome (until_await (handleChatSubmit id s) s)) o)
             s2 in
  trace r = [RenderThrew TypeError] /\
  final_state r = s2.
Proof.
  intros Hne Hn. unfold handleChatSubmit.
  destruct (trim (chatInput s)) as [|c rest]; [congruence|].
  cbn. unfold json.
  destruct o as [|res]; [discriminate|]. simpl in Hn. cbn.
  destruct (res_body res) as [data|]; [|discriminate]. cbn.
  rewrite (get_prop_nullish _ _ Hn). cbn. split; reflexivity.
Qed.

(** Every outcome of a call is of one of the three kinds. *)
Lemma outcome_kinds (o : fetch_result) :
  call_fails o = true
  \/ null_body o = true
  \/ exists res data,
       o = Response res /\ res_body res = Some data /\ nullish data = false.
Proof.
  destruct o as [|res]; simpl; [left; reflexivity|].
  destruct (res_body res) as [data|] eqn:Hb; [|left; reflexivity].
  destruct (nullish data) eqn:Hn; [right; left; reflexivity|].
  right. right. exists res, data. auto.
Qed.

(** C4, amended. A chat submit whose input is non-blank after trimming
    appends a user entry with that input before the call resolves: when
    the handler is suspended on the request, the entry is in the
    history. When the call settles, in whatever state the page then is,
    nothing is removed from the history held, in any outcome; after a
    call that fails (network error or a body that is not JSON) exactly
    one assistant entry is appended, ['Error getting response.']; after
    a call whose body is a JSON value other than [null] exactly one
    assistant entry is appended, the [response] field when that is
    truthy and ['No response.'] when the field is absent or falsy (the
    empty string), the field being a primitive value. Start to end the
    history grows by the user entry then that assistant entry, for one
    request. *)
Theorem chat_submit_appends (env : request -> fetch_result) (id : jsstring)
  (s : State) :
  trim (chatInput s) <> [] ->
  let req := chat_request id (chatInput s) in
  let mine := {| role := user; content := VStr (chatInput s) |} in
  let failed := {| role := assistant;
                   content := VStr (lit "Error getting response.") |} in
  let answer := fun v =>
    {| role := assistant;
       content := if ToBoolean v then v else VStr (lit "No response.") |} in
  let u := until_await (handleChatSubmit id s) s in
  trace u = [Issued req] /\
  awaiting (outcome u) = Some req /\
  chatHistory (final_state u) = chatHistory s ++ [mine] /\
  (forall o s2,
      let r := run env (resume (outcome u) o) s2 in
      (exists added, chatHistory (final_state r) = chatHistory s2 ++ added) /\
      (call_fails o = true ->
       chatHistory (final_state r) = chatHistory s2 ++ [failed]) /\
      (forall res data v,
          o = Response res -> res_body res = Some data ->
          get_prop data (lit "response") = Normal v ->
          primitive v = true ->
          chatHistory (final_state r) = chatHistory s2 ++ [answer v])) /\
  (let r := chat_submit env id s in
   issued (trace r) = [req] /\
   (exists added, chatHistory (final_state r) = chatHistory s ++ mine :: added) /\
   (call_fails (env req) = true ->
    chatHistory (final_state r) = chatHistory s ++ [mine; failed]) /\
   (forall res data v,
       env req = Response res -> res_body res = Some data ->
       get_prop data (lit "response") = Normal v ->
       primitive v = true ->
       chatHistory (final_state r) = chatHistory s ++ [mine; answer v])).
Proof.
  intros Hne. cbv zeta.
  destruct (chat_pending id s Hne) as (Ht & Ha & Hh).
  assert (Hparts : forall o s2,
             (exists added,
                 chatHistory
                   (final_state
                      (run env
                         (resume (outcome (until_await (handleChatSubmit id s) s)) o)
                         s2))
                 = chatHistory s2 ++ added) /\
             (call_fails o = true ->
              chatHistory
                (final_state
                   (run env
                      (resume (outcome (until_await (handleChatSubmit id s) s)) o)
                      s2))
              = chatHistory s2
                ++ [{| role := assistant;
                       content := VStr (lit "Error getting response.") |}]) /\
             (forall res data v,
                 o = Response res -> res_body res = Some data ->
                 get_prop data (lit "response") = Normal v ->
                 chatHistory
                   (final_state
                      (run env
                         (resume (outcome (until_await (handleChatSubmit id s) s)) o)
                         s2))
                 = chatHistory s2
                   ++ [{| role := assistant;
                          content := if ToBoolean v then v
                                     else VStr (lit "No response.") |}])).
  { intros o s2. split; [|split].
    - destruct (outcome_kinds o) as [Hf | [Hn | (res & data & -> & Hb & Hd)]].
      + destruct (chat_settles_failed env id s o s2 Hne Hf) as (_ & H & _).
        eexists. exact H.
      + destruct (chat_settles_null env id s o s2 Hne Hn) as (_ & H).
        exists []. rewrite H, app_nil_r. reflexivity.
      + destruct (get_prop_defined data (lit "response") Hd) as [v Hv].
        destruct (chat_settles_answered env id s res s2 Hne Hb Hv)
          as (_ & H & _).
        eexists. exact H.
    - intros Hf.
      destruct (chat_settles_failed env id s o s2 Hne Hf) as (_ & H & _).
      exact H.
    - intros res data v -> Hb Hv.
      destruct (chat_settles_answered env id s res s2 Hne Hb Hv) as (_ & H & _).
      exact H. }
  assert (He : render_errors (trace (until_await (handleChatSubmit id s) s)) = [])
    by (rewrite Ht; reflexivity).
  destruct (@run_after_await _ _ env _ s _ Ha He) as (Rs & Rt & _).
  split; [exact Ht|]. split; [exact Ha|]. split; [exact Hh|].
  split.
  { intros o s2. destruct (Hparts o s2) as (P1 & P2 & P3).
    split; [exact P1|]. split; [exact P2|].
    intros res data v Ho Hb Hv _. exact (P3 res data v Ho Hb Hv). }
  unfold chat_submit.
  destruct (Hparts (env (chat_request id (chatInput s)))
              (final_state (until_await (handleChatSubmit id s) s)))
    as ((added & Hadd) & Hfail & Hans).
  split; [|split; [|split]].
  - rewrite Rt, Ht. simpl.
    destruct (outcome_kinds (env (chat_request id (chatInput s))))
      as [Hf | [Hn | (res & data & Ho & Hb & Hd)]].
    + rewrite (proj1 (chat_settles_failed env id s _ _ Hne Hf)). reflexivity.
    + rewrite (proj1 (chat_settles_null env id s _ _ Hne Hn)). reflexivity.
    + destruct (get_prop_defined data (lit "response") Hd) as [v Hv].
      rewrite Ho.
      rewrite (proj1 (chat_settles_answered env id s res _ Hne Hb Hv)).
      reflexivity.
  - exists added. rewrite Rs, Hadd, Hh, <- app_assoc. reflexivity.
  - intros Hf. rewrite Rs, (Hfail Hf), Hh, <- app_assoc. reflexivity.
  - intros res data v Ho Hb Hv _.
    rewrite Rs, (Hans res data v Ho Hb Hv), Hh, <- app_assoc. reflexivity.
Qed.

(** C9, amended. After a chat submit the input field is empty when the
    input was non-blank after trimming, whether the call succeeded or
    failed; when the input was blank after trimming the field keeps the
    content it had. In both cases the page is there to show it: nothing
    was thrown. A non-blank input whose call is answered with the JSON
    text [null], or with a [response] that is not a primitive value, is
    left apart. *)
Theorem chat_submit_input_afterwards (env : request -> fetch_result)
  (id : jsstring) (s : State) :
  trim (chatInput s) = []
  \/ (null_body (env (chat_request id (chatInput s))) = false /\
      response_primitive (env (chat_request id (chatInput s))) = true) ->
  render_errors (trace (chat_submit env id s)) = [] /\
  chatInput (final_state (chat_submit env id s))
  = match trim (chatInput s) with
    | [] => chatInput s
    | _ :: _ => []
    end.
Proof.
  intros Hnn.
  destruct (trim (chatInput s)) as [|c rest] eqn:E.
  - unfold chat_submit, handleChatSubmit. rewrite E. split; reflexivity.
  - assert (Hne : trim (chatInput s) <> []) by (rewrite E; discriminate).
    destruct (chat_pending id s Hne) as (Ht & Ha & _).
    assert (He : render_errors
                   (trace (until_await (handleChatSubmit id s) s)) = [])
      by (rewrite Ht; reflexivity).
    destruct (@run_after_await _ _ env _ s _ Ha He) as (Rs & Rt & _).
    unfold chat_submit. rewrite Rs, Rt, Ht.
    destruct (outcome_kinds (env (chat_request id (chatInput s))))
      as [Hf | [Hn | (res & data & Ho & Hb & Hd)]].
    + destruct (chat_settles_failed env id s _
                  (final_state (until_await (handleChatSubmit id s) s)) Hne Hf)
        as (H1 & _ & H3 & _).
      rewrite H1. split; [reflexivity | exact H3].
    + destruct Hnn as [Hb | [Hnn _]]; congruence.
    + destruct (get_prop_defined data (lit "response") Hd) as [v Hv].
      rewrite Ho.
      destruct (chat_settles_answered env id s res
                  (final_state (until_await (handleChatSubmit id s) s)) Hne Hb Hv)
        as (H1 & _ & H3 & _).
      rewrite H1. split; [reflexivity | exact H3].
Qed.

End ChatProperties.

(** Witness of C4, amended: ["hello"] answered [{response: "hi there"}]. *)
Lemma chat_submit_appends_witness :
  ReviewPage.chatHistory
    (final_state
       (until_await
          (ReviewPage.handleChatSubmit (lit "abc") (typed_in_chat (lit "hello")))
          (typed_in_chat (lit "hello"))))
  = [{| ReviewPage.role := ReviewPage.user;
        ReviewPage.content := VStr (lit "hello") |}].
Proof.
  refine (proj1 (proj2 (proj2
            (chat_submit_appends
               (always (json_response 200
                          (VObj [(lit "response", VStr (lit "hi there"))])))
               (lit "abc") (typed_in_chat (lit "hello")) _)))).
  vm_compute. discriminate.
Defined.

(** C4 as stated fails on ["hello"] answered [{response: ""}]: the call
    succeeds and the field is present, yet the assistant entry is the
    fallback text, not the field. *)
Lemma chat_submit_appends_counterexample :
  let data := VObj [(lit "response", VStr [])] in
  let r := ReviewPage.chat_submit (always (json_response 200 data)) (lit "abc")
             (typed_in_chat (lit "hello")) in
  get_prop data (lit "response") = Normal (VStr []) /\
  ReviewPage.chatHistory (final_state r)
  = [{| ReviewPage.role := ReviewPage.user;
        ReviewPage.content := VStr (lit "hello") |};
     {| ReviewPage.role := ReviewPage.assistant;
        ReviewPage.content := VStr (lit "No response.") |}] /\
  ReviewPage.chatHistory (final_state r)
  <> [{| ReviewPage.role := ReviewPage.user;
         ReviewPage.content := VStr (lit "hello") |};
      {| ReviewPage.role := ReviewPage.assistant;
         ReviewPage.content := VStr [] |}].
Proof.
  cbv zeta. repeat split. vm_compute. discriminate.
Qed.

(** Witness of C9, amended: ["hello"] answered [{response: "hi there"}]. *)
Lemma chat_submit_input_afterwards_witness :
  ReviewPage.chatInput
    (final_state
       (ReviewPage.chat_submit
          (always (json_response 200
                     (VObj [(lit "response", VStr (lit "hi there"))])))
          (lit "abc") (typed_in_chat (lit "hello"))))
  = [].
Proof.
  apply (chat_submit_input_afterwards
           (always (json_response 200
                      (VObj [(lit "response", VStr (lit "hi there"))])))
           (lit "abc") (typed_in_chat (lit "hello"))).
  right. split; reflexivity.
Defined.

(** C9 as stated fails on an input of one space: it is blank after
    trimming, and after the submit attempt the field still holds the
    space. *)
Lemma chat_submit_input_afterwards_counterexample :
  let r := ReviewPage.chat_submit (always (json_response 200 (VObj [])))
             (lit "abc") (typed_in_chat (lit " ")) in
  trim (lit " ") = [] /\
  ReviewPage.chatInput (final_state r) = lit " " /\
  ReviewPage.chatInput (final_state r) <> [].
Proof.
  cbv zeta. repeat split. vm_compute. discriminate.
Qed.

(* ===================================================================== *)
(** ** Properties of [ReviewPage]: the search and the audio player *)
(* ===================================================================== *)

Lemma map_completion_nth {A B} (f : A -> completion B) (l : list A)
  (ys : list B) (i : nat) (y : B) :
  ReviewPage.map_completion f l = Normal ys ->
  nth_error ys i = Some y ->
  exists x, nth_error l i = Some x /\ f x = Normal y.
Proof.
  revert ys i. induction l as [|x l IH]; intros ys i; simpl.
  - intros [= <-]. destruct i; discriminate.
  - destruct (f x) as [y0|e] eqn:Ef; simpl; [|discriminate].
    destruct (ReviewPage.map_completion f l) as [ys0|e]; simpl; [|discriminate].
    intros [= <-]. destruct i as [|i]; simpl.
    + intros [= <-]. exists x. split; [reflexivity | assumption].
    + intros Hy. apply (IH ys0 i eq_refl Hy).
Qed.

Section SearchProperties.
Import ReviewPage.
Context {conv : NumberConversions}.

(** C5. For a non-blank query, a search call that fails (network error
    or a body that is not JSON) and one that succeeds with a [results]
    field absent or empty leave the page in the same state, hence
    showing the same thing: the results are the empty collection, the
    searching flag is cleared, and the error message is what it was, the
    handler setting none. *)
Theorem search_failure_is_silent (env_failed env_empty : request -> fetch_result)
  (id : jsstring) (s : State) (res : response) (data : jsval) :
  trim (searchInput s) <> [] ->
  call_fails (env_failed (search_request id (searchInput s))) = true ->
  env_empty (search_request id (searchInput s)) = Response res ->
  res_body res = Some data ->
  get_prop data (lit "results") = Normal VUndef
  \/ get_prop data (lit "results") = Normal (VArr []) ->
  let failed := final_state (search_submit env_failed id s) in
  let empty := final_state (search_submit env_empty id s) in
  failed = empty /\
  searchResults failed = VArr [] /\
  searchLoading failed = false /\
  error failed = error s /\
  render failed = render empty.
Proof.
  intros Hne Hf He Hb Hr. cbv zeta.
  assert (Hempty : final_state (search_submit env_empty id s)
                   = final_state
                       (run env_empty
                          (setSearchLoading true ;; setSearchResults (VArr []) ;;
                           setSearchLoading false) s)).
  { unfold search_submit, handleSearchSubmit.
    destruct (trim (searchInput s)) as [|c rest]; [congruence|].
    cbn. rewrite He. cbn. unfold json. rewrite Hb. cbn.
    destruct Hr as [-> | ->]; reflexivity. }
  assert (Hfailed : final_state (search_submit env_failed id s)
                    = final_state
                        (run env_empty
                           (setSearchLoading true ;; setSearchResults (VArr []) ;;
                            setSearchLoading false) s)).
  { unfold search_submit, handleSearchSubmit.
    destruct (trim (searchInput s)) as [|c rest]; [congruence|].
    cbn. destruct (env_failed _) as [|res']; cbn; [reflexivity|].
    simpl in Hf. unfold json. destruct (res_body res'); [discriminate|].
    reflexivity. }
  rewrite Hfailed, Hempty. repeat split.
Qed.

(** C6, amended. On a page that shows its content, every child placed
    being a primitive, a result shown is a result of the search, in its
    place. When its [timestamp] converts to a finite number, activating
    it while the audio element is mounted assigns that number to the
    element's [currentTime] and calls [play()]; activating it while no
    element is mounted changes nothing. No element is mounted while
    [audioUrl] is falsy, and a mounted element was given the truthy
    [audioUrl] as its [src]. *)
Theorem activate_search_result (s : State) (v : View) (c : Content) (i : nat)
  (h : SearchHit) (previous : option HTMLAudioElement) (n : float) :
  render s = Normal v ->
  fragment v = Some c ->
  children_primitive c = true ->
  nth_error (search_hits c) i = Some h ->
  ToNumber (hit_label h) = Normal n ->
  PrimFloat.is_finite n = true ->
  (exists items result,
      searchResults s = VArr items /\
      nth_error items i = Some result /\
      get_prop result (lit "timestamp") = Normal (hit_label h)) /\
  (forall a,
      activate h (Some a)
      = Normal (Some {| src := src a; currentTime := VNum n;
                        playing := true |})) /\
  activate h None = Normal None /\
  (ToBoolean (audioUrl s) = false ->
   commit_audioRef (render s) previous = None) /\
  (forall a, commit_audioRef (render s) previous = Some a ->
             ToBoolean (audioUrl s) = true /\ src a = audioUrl s).
Proof.
  intros Hr Hc _ Hn Hnum Hfin.
  assert (Hc' : render_content s = Normal c).
  { revert Hr. unfold render.
    destruct (negb (loading s) && negb (ToBoolean (VStr (error s)))).
    - destruct (render_content s) as [c'|e]; simpl; [|discriminate].
      intros [= <-]. simpl in Hc. congruence.
    - simpl. intros [= <-]. discriminate Hc. }
  assert (Ha : audio_src c
               = if ToBoolean (audioUrl s) then Some (audioUrl s) else None).
  { revert Hc'. unfold render_content.
    destruct (render_list (transcript s) _ _); simpl; [|discriminate].
    destruct (render_list (pitch s) _ _); simpl; [|discriminate].
    destruct (render_list (suggestions s) _ _); simpl; [|discriminate].
    destruct (render_search (searchResults s)); simpl; [|discriminate].
    intros [= <-]. reflexivity. }
  assert (Hs : exists found, render_search (searchResults s) = Normal found
                             /\ search_hits c = snd found).
  { revert Hc'. unfold render_content.
    destruct (render_list (transcript s) _ _); simpl; [|discriminate].
    destruct (render_list (pitch s) _ _); simpl; [|discriminate].
    destruct (render_list (suggestions s) _ _); simpl; [|discriminate].
    destruct (render_search (searchResults s)) as [found|]; simpl;
      [|discriminate].
    intros [= <-]. exists found. split; reflexivity. }
  destruct Hs as (found & Hf & Hh).
  destruct (searchResults s) as [| | | | |items|] eqn:Es;
    simpl in Hf; try discriminate.
  destruct (map_completion render_hit items) as [hits|] eqn:Em;
    simpl in Hf; [|discriminate].
  injection Hf as <-. simpl in Hh. rewrite Hh in Hn.
  destruct (map_completion_nth _ _ _ Em Hn) as (result & Hi & Hhit).
  unfold render_hit in Hhit.
  destruct (get_prop result (lit "timestamp")) as [label|] eqn:El;
    simpl in Hhit; [|discriminate].
  destruct (get_prop result (lit "text")) as [text|];
    simpl in Hhit; [|discriminate].
  injection Hhit as <-. simpl in Hnum.
  split; [|split; [|split; [|split]]].
  - exists items, result. repeat split; assumption.
  - intros a. unfold activate, jumpToTimestamp, set_currentTime. simpl.
    rewrite El. simpl. rewrite Hnum. simpl. rewrite Hfin. reflexivity.
  - unfold activate. simpl. rewrite El. reflexivity.
  - intros Hu. rewrite Hr. simpl. rewrite Hc, Ha, Hu. reflexivity.
  - intros a. rewrite Hr. simpl. rewrite Hc, Ha.
    destruct (ToBoolean (audioUrl s)); [|discriminate].
    destruct previous; intros [= <-]; split; reflexivity.
Qed.

End SearchProperties.

(** Witness of C5: the query "price", once failing on the network and
    once answered [{results: []}]. *)
Lemma search_failure_is_silent_witness :
  final_state
    (ReviewPage.search_submit (always NetworkError) (lit "abc")
       (typed_in_search (lit "price")))
  = final_state
      (ReviewPage.search_submit
         (always (json_response 200 (VObj [(lit "results", VArr [])])))
         (lit "abc") (typed_in_search (lit "price"))).
Proof.
  refine (proj1
            (search_failure_is_silent (conv := nan_conversions)
               (always NetworkError)
               (always (json_response 200 (VObj [(lit "results", VArr [])])))
               (lit "abc") (typed_in_search (lit "price"))
               (res := {| res_status := 200;
                          res_body := Some (VObj [(lit "results", VArr [])]) |})
               (data := VObj [(lit "results", VArr [])])
               _ eq_refl eq_refl eq_refl (or_intror eq_refl))).
  vm_compute. discriminate.
Defined.

(** Witness of C6, amended: the one result of the search for "price",
    activated with the audio of the call mounted. *)
Lemma activate_search_result_witness :
  ReviewPage.activate (conv := nan_conversions)
    {| ReviewPage.hit_result := price_result;
       ReviewPage.hit_label := VNum 42;
       ReviewPage.hit_text := VStr (lit "price objection") |}
    (Some call_audio)
  = Normal (Some {| ReviewPage.src := VStr (lit "https://cdn.example/call.mp3");
                    ReviewPage.currentTime := VNum 42;
                    ReviewPage.playing := true |}).
Proof.
  refine (proj1 (proj2
            (activate_search_result (conv := nan_conversions)
               found_price 0
               (v := {| ReviewPage.loading_indicator := false;
                        ReviewPage.error_banner := None;
                        ReviewPage.fragment := Some _ |})
               (h := {| ReviewPage.hit_result := price_result;
                        ReviewPage.hit_label := VNum 42;
                        ReviewPage.hit_text := VStr (lit "price objection") |})
               None (n := 42%float)
               eq_refl eq_refl eq_refl eq_refl eq_refl eq_refl))
            call_audio).
Defined.

(** C6 as stated fails twice. With [audio_url: true] loaded the audio
    element is mounted without a source, and activating a result is not
    a no-op: the element is sought and played. And with the element of
    the call mounted, activating a result that carries no [timestamp]
    throws in the assignment of [currentTime]: the position is not set
    and [play()] is not called. *)
Lemma activate_search_result_counterexample :
  let hit := {| ReviewPage.hit_result := price_result;
                ReviewPage.hit_label := VNum 42;
                ReviewPage.hit_text := VStr (lit "price objection") |} in
  let mounted := {| ReviewPage.src := VBool true;
                    ReviewPage.currentTime := VNum 0;
                    ReviewPage.playing := false |} in
  ReviewPage.render_search (ReviewPage.searchResults found_price_unsourced)
  = Normal (false, [hit]) /\
  ReviewPage.commit_audioRef
    (ReviewPage.render (conv := nan_conversions) found_price_unsourced) None
  = Some mounted /\
  ReviewPage.activate (conv := nan_conversions) hit (Some mounted)
  = Normal (Some {| ReviewPage.src := VBool true;
                    ReviewPage.currentTime := VNum 42;
                    ReviewPage.playing := true |}) /\
  ReviewPage.activate (conv := nan_conversions) hit (Some mounted)
  <> Normal (Some mounted) /\
  ReviewPage.render_hit untimed_result
  = Normal {| ReviewPage.hit_result := untimed_result;
              ReviewPage.hit_label := VUndef;
              ReviewPage.hit_text := VStr (lit "no timestamp") |} /\
  ReviewPage.activate (conv := nan_conversions)
    {| ReviewPage.hit_result := untimed_result;
       ReviewPage.hit_label := VUndef;
       ReviewPage.hit_text := VStr (lit "no timestamp") |}
    (Some call_audio)
  = Abrupt TypeError.
Proof.
  cbv zeta. repeat split. vm_compute. discriminate.
Qed.

(* ===================================================================== *)
(** ** Concrete runs *)
(* ===================================================================== *)

Example trim_strips_both_ends : trim (lit "  hello ") = lit "hello".
Proof. reflexivity. Qed.

Example trim_no_break_space : trim [0xA0; 0x2003; 0xFEFF]%N = [].
Proof. reflexivity. Qed.

(** The three responses [{transcript: [{text: "hi"}]}], [{pitch:
    ["step1"]}] and [{suggestions: ["say X"]}] give a page with one
    line in each list, no loading line and no error line. *)
Example load_three_answers :
  ReviewPage.render (conv := nan_conversions)
    (final_state
       (ReviewPage.load
          (review_network (lit "abc")
             (json_response 200
                (VObj [(lit "transcript",
                        VArr [VObj [(lit "text", VStr (lit "hi"))]])]))
             (json_response 200
                (VObj [(lit "pitch", VArr [VStr (lit "step1")])]))
             (json_response 200
                (VObj [(lit "suggestions", VArr [VStr (lit "say X")])])))
          (lit "abc") ReviewPage.initial))
  = Normal
      {| ReviewPage.loading_indicator := false;
         ReviewPage.error_banner := None;
         ReviewPage.fragment :=
           Some {| ReviewPage.audio_src := None;
                   ReviewPage.transcript_view :=
                     ReviewPage.Items [VStr (lit "hi")];
                   ReviewPage.pitch_view :=
                     ReviewPage.Items [VStr (lit "step1")];
                   ReviewPage.suggestions_view :=
                     ReviewPage.Items [VStr (lit "say X")];
                   ReviewPage.chat_placeholder := true;
                   ReviewPage.chat_lines := [];
                   ReviewPage.chat_input_value := [];
                   ReviewPage.chat_disabled := false;
                   ReviewPage.chat_button := lit "Send";
                   ReviewPage.search_input_value := [];
                   ReviewPage.search_disabled := false;
                   ReviewPage.search_button := lit "Search";
                   ReviewPage.search_placeholder := true;
                   ReviewPage.search_hits := [] |} |}.
Proof. reflexivity. Qed.

(** A chat submit with only white space typed: nothing is appended and
    nothing is sent. *)
Example chat_blank_is_a_no_op :
  ReviewPage.chat_submit (always NetworkError) (lit "abc")
    (typed_in_chat (lit "   "))
  = (typed_in_chat (lit "   "), [], Normal tt).
Proof. reflexivity. Qed.

(** The chat call failing after ["hello"]: the user entry stays, the
    error text follows. *)
Example chat_hello_fails :
  ReviewPage.chatHistory
    (final_state
       (ReviewPage.chat_submit (always NetworkError) (lit "abc")
          (typed_in_chat (lit "hello"))))
  = [{| ReviewPage.role := ReviewPage.user;
        ReviewPage.content := VStr (lit "hello") |};
     {| ReviewPage.role := ReviewPage.assistant;
        ReviewPage.content := VStr (lit "Error getting response.") |}].
Proof. reflexivity. Qed.

(** The chat call answered with the JSON text [null] after ["hello"]:
    the user entry is the last one appended, the updater of the answer
    throws while the page is rendered, and the input is not cleared. *)
Example chat_hello_null :
  let r := ReviewPage.chat_submit (always (json_response 200 VNull)) (lit "abc")
             (typed_in_chat (lit "hello")) in
  render_errors (trace r) = [TypeError] /\
  ReviewPage.chatHistory (final_state r)
  = [{| ReviewPage.role := ReviewPage.user;
        ReviewPage.content := VStr (lit "hello") |}] /\
  ReviewPage.chatInput (final_state r) = lit "hello".
Proof. repeat split. Qed.

(** An upload answered with a [conversation_id] that cannot be made a
    string: the template literal throws, and the page reports a failed
    upload without navigating. *)
Example upload_unprintable_id :
  let r := UploadPage.submit (conv := nan_conversions)
             (always (json_response 200
                        (VObj [(lit "conversation_id",
                                VObj [(lit "toString", VStr (lit "x"))])])))
             both_selected in
  navigations (trace r) = [] /\
  UploadPage.error (final_state r) = lit "Upload failed. Please try again.".
Proof. repeat split. Qed.

(** The search for "price" answered with one result at second 42: the
    page shows one result, labelled 42. *)
Example search_price_one_hit :
  ReviewPage.render_search
    (ReviewPage.searchResults
       (final_state
          (ReviewPage.search_submit
             (always (json_response 200
                        (VObj [(lit "results", VArr [price_result])])))
             (lit "abc") (typed_in_search (lit "price")))))
  = Normal (false,
            [{| ReviewPage.hit_result := price_result;
                ReviewPage.hit_label := VNum 42;
                ReviewPage.hit_text := VStr (lit "price objection") |}]).
Proof. reflexivity. Qed.

(** An upload answered with the JSON text [null]: the property read
    throws, and the page reports a failed upload. *)
Example upload_null_body :
  UploadPage.submit (conv := nan_conversions)
    (always (json_response 200 VNull)) both_selected
  = ({| UploadPage.audioFile := Some sample_audio;
        UploadPage.pitchFile := Some sample_pitch;
        UploadPage.loading := false;
        UploadPage.error := lit "Upload failed. Please try again." |},
     [Issued (UploadPage.upload_request
                [(lit "audio", sample_audio); (lit "pitch", sample_pitch)]);
      Settled (UploadPage.upload_request
                 [(lit "audio", sample_audio); (lit "pitch", sample_pitch)])
        (json_response 200 VNull)],
     Normal tt).
Proof. reflexivity. Qed.

(* ===================================================================== *)
(** ** Further properties of [UploadPage] *)
(* ===================================================================== *)

Section UploadPageFurther.
Import UploadPage.
Context {conv : NumberConversions}.

(** With both files selected a submit issues the upload request, once,
    and ends with the flag cleared and the files kept; it ends without
    a navigation exactly when the call fails, the body is [null], or the
    key cannot be made a string. *)
Lemma submit_with_both_files (env : request -> fetch_result) (s : State)
  (audio pitch : File) :
  audioFile s = Some audio ->
  pitchFile s = Some pitch ->
  let req := upload_request [(lit "audio", audio); (lit "pitch", pitch)] in
  let r := submit env s in
  issued (trace r) = [req] /\
  loading (final_state r) = false /\
  audioFile (final_state r) = Some audio /\
  pitchFile (final_state r) = Some pitch /\
  (upload_call_fails (env req) = true \/ body_read (env req) = false
   \/ key_not_printable (env req) = true ->
   navigations (trace r) = [] /\
   error (final_state r) = lit "Upload failed. Please try again.") /\
  (upload_call_fails (env req) = false -> body_read (env req) = true ->
   key_not_printable (env req) = false ->
   exists key, navigations (trace r) = [lit "/review/" ++ key] /\
               error (final_state r) = []).
Proof.
  intros Ha Hp. unfold submit, handleSubmit, key_not_printable.
  destruct s as [a p l e]; simpl in Ha, Hp; subst a p.
  cbn. unfold json.
  destruct (env _) as [|res]; cbn.
  { repeat split; intros; discriminate. }
  destruct (res_ok res); cbn.
  2:{ repeat split; intros; discriminate. }
  destruct (res_body res) as [data|]; cbn.
  2:{ repeat split; intros; discriminate. }
  destruct (nullish data) eqn:Hn.
  - rewrite (get_prop_nullish _ _ Hn). cbn.
    repeat split; intros; discriminate.
  - destruct (get_prop_defined data (lit "conversation_id") Hn) as [v ->]. cbn.
    destruct (ToString (js_or v (VStr (lit "demo123")))) as [key|e0]; cbn.
    + do 4 (split; [reflexivity|]). split.
      * intros [H|[H|H]]; simpl in H; rewrite ?Hn in H; discriminate.
      * intros _ _ _. eexists. split; reflexivity.
    + do 4 (split; [reflexivity|]). split.
      * intros _. split; reflexivity.
      * intros _ _ H. discriminate H.
Qed.

(** With both files selected a submit issues the upload request exactly
    once, whatever the answer, and ends with the loading flag cleared in
    one of two ways, never both and never neither: one call of
    [navigate] with a review path and no error message, or no navigation
    and the generic error message. It is the second exactly when the
    call fails (network, status outside 200-299, body that is not JSON),
    the body is [null], or the [conversation_id] cannot be made a string
    (an object with a [toString] property of its own). *)
Theorem submit_navigates_or_reports (env : request -> fetch_result) (s : State)
  (audio pitch : File) :
  audioFile s = Some audio ->
  pitchFile s = Some pitch ->
  let req := upload_request [(lit "audio", audio); (lit "pitch", pitch)] in
  let r := submit env s in
  issued (trace r) = [req] /\
  loading (final_state r) = false /\
  ((navigations (trace r) = [] /\
    error (final_state r) = lit "Upload failed. Please try again.")
   \/ (exists key, navigations (trace r) = [lit "/review/" ++ key] /\
                   error (final_state r) = [])) /\
  (navigations (trace r) = [] <->
   upload_call_fails (env req) = true \/ body_read (env req) = false
   \/ key_not_printable (env req) = true).
Proof.
  intros Ha Hp. cbv zeta.
  destruct (submit_with_both_files env s Ha Hp) as (Hi & Hl & _ & _ & Hf & Hs).
  split; [exact Hi|]. split; [exact Hl|].
  destruct (upload_call_fails (env _)) eqn:Eu.
  { destruct (Hf (or_introl eq_refl)) as [Hn He]. split; [left; auto|].
    split; auto. }
  destruct (body_read (env _)) eqn:Eb.
  2:{ destruct (Hf (or_intror (or_introl eq_refl))) as [Hn He].
      split; [left; auto|]. split; auto. }
  destruct (key_not_printable (env _)) eqn:Ek.
  { destruct (Hf (or_intror (or_intror eq_refl))) as [Hn He].
    split; [left; auto|]. split; auto. }
  destruct (Hs eq_refl eq_refl eq_refl) as (key & Hn & He). split.
  - right. exists key. auto.
  - rewrite Hn. split; [discriminate|]. intros [H|[H|H]]; discriminate.
Qed.

(** While the upload is in flight the page holds the loading flag and
    no error message, whatever message it showed before: the submit
    button is disabled and reads "Uploading...", and the one request
    issued is the upload. *)
Theorem submit_in_flight (s : State) (audio pitch : File) :
  audioFile s = Some audio ->
  pitchFile s = Some pitch ->
  let req := upload_request [(lit "audio", audio); (lit "pitch", pitch)] in
  let u := until_await (handleSubmit s) s in
  trace u = [Issued req] /\
  awaiting (outcome u) = Some req /\
  loading (final_state u) = true /\
  error (final_state u) = [] /\
  render (final_state u)
  = {| error_banner := None;
       submit_disabled := true;
       submit_label := lit "Uploading..." |}.
Proof.
  intros Ha Hp. unfold handleSubmit.
  destruct s as [a p l e]; simpl in Ha, Hp; subst a p.
  repeat split.
Qed.

(** A 2xx response whose [conversation_id] is any falsy value, [null],
    [false], [0] and [NaN] as well as the empty string or no field at
    all, sends the client to [/review/demo123]. *)
Theorem submit_falsy_id_falls_back (env : request -> fetch_result) (s : State)
  (audio pitch : File) (res : response) (data v : jsval) :
  audioFile s = Some audio ->
  pitchFile s = Some pitch ->
  env (upload_request [(lit "audio", audio); (lit "pitch", pitch)])
    = Response res ->
  res_ok res = true ->
  res_body res = Some data ->
  get_prop data (lit "conversation_id") = Normal v ->
  ToBoolean v = false ->
  navigations (trace (submit env s)) = [lit "/review/demo123"].
Proof.
  intros Ha Hp He Hok Hb Hv Hf. unfold submit, handleSubmit.
  destruct s as [a p l e]; simpl in Ha, Hp; subst a p.
  cbn. settle_with He. cbn. rewrite Hok. cbn.
  unfold json. rewrite Hb. cbn. rewrite Hv. cbn.
  unfold js_or. rewrite Hf. reflexivity.
Qed.

(** Picking files and then submitting: each input keeps the first file
    of its list, or nothing when the list is empty, and touches neither
    the other input nor the message shown; the submit that follows
    uploads exactly those two files under the names [audio] and [pitch],
    and calls nothing when either list was empty. *)
Theorem pick_then_submit (env : request -> fetch_result) (s : State)
  (audio_files pitch_files : list File) :
  let s' := final_state
              (run env (onAudioChange audio_files ;; onPitchChange pitch_files) s) in
  audioFile s' = nth_error audio_files 0 /\
  pitchFile s' = nth_error pitch_files 0 /\
  error s' = error s /\
  loading s' = loading s /\
  issued (trace (submit env s'))
  = match audio_files, pitch_files with
    | audio :: _, pitch :: _ =>
        [upload_request [(lit "audio", audio); (lit "pitch", pitch)]]
    | _, _ => []
    end.
Proof.
  cbv zeta. do 4 (split; [reflexivity|]).
  destruct audio_files as [|audio fa]; [reflexivity|].
  destruct pitch_files as [|pitch fp]; [reflexivity|].
  apply (submit_with_both_files env
           (final_state
              (run env (onAudioChange (audio :: fa) ;; onPitchChange (pitch :: fp)) s))
           (audio := audio) (pitch := pitch)); reflexivity.
Qed.
End UploadPageFurther.

(** The upload answered 200 with [{}]. *)
Lemma submit_navigates_or_reports_witness :
  issued
    (trace
       (UploadPage.submit (conv := nan_conversions)
          (always (json_response 200 (VObj []))) both_selected))
  = [UploadPage.upload_request
       [(lit "audio", sample_audio); (lit "pitch", sample_pitch)]].
Proof.
  apply (submit_navigates_or_reports (conv := nan_conversions)
           (always (json_response 200 (VObj []))) both_selected
           (audio := sample_audio) (pitch := sample_pitch));
    reflexivity.
Defined.

(** Both files picked, the upload not yet answered. *)
Lemma submit_in_flight_witness :
  UploadPage.loading
    (final_state
       (until_await (UploadPage.handleSubmit (conv := nan_conversions) both_selected)
          both_selected))
  = true.
Proof.
  apply (submit_in_flight (conv := nan_conversions) both_selected
           (audio := sample_audio) (pitch := sample_pitch));
    reflexivity.
Defined.

(** The upload answered 201 with [{conversation_id: null}]. *)
Lemma submit_falsy_id_falls_back_witness :
  navigations
    (trace
       (UploadPage.submit (conv := nan_conversions)
          (always (json_response 201 (VObj [(lit "conversation_id", VNull)])))
          both_selected))
  = [lit "/review/demo123"].
Proof.
  apply (submit_falsy_id_falls_back (conv := nan_conversions)
           (always (json_response 201 (VObj [(lit "conversation_id", VNull)])))
           both_selected
           (audio := sample_audio) (pitch := sample_pitch)
           (res := {| res_status := 201;
                      res_body := Some (VObj [(lit "conversation_id", VNull)]) |})
           (data := VObj [(lit "conversation_id", VNull)])
           (v := VNull));
    reflexivity.
Defined.

(* ===================================================================== *)
(** ** Further properties of [ReviewPage]: loading and showing *)
(* ===================================================================== *)

(** One step of the case analysis of a handler run against [env]: on
    the outcome of the next request, on the body of its response, or on
    the property read of that body. *)
Ltac settle_step env :=
  cbn;
  match goal with
  | N : nullish ?d = true |- context [get_prop ?d ?n] =>
      rewrite (get_prop_nullish d n N)
  | N : nullish ?d = false |- context [get_prop ?d ?n] =>
      let v := fresh "v" in
      let E := fresh "E" in
      destruct (get_prop_defined d n N) as [v E]; rewrite E
  | |- context [get_prop ?d _] =>
      is_var d; let N := fresh "N" in destruct (nullish d) eqn:N
  | |- context [res_body ?res] =>
      is_var res; let data := fresh "data" in let B := fresh "B" in
      destruct (res_body res) as [data|] eqn:B
  | |- context [env ?r] =>
      let res := fresh "res" in let O := fresh "O" in
      destruct (env r) as [|res] eqn:O
  end.

(** Closes a goal in which a property of a [null] body has been read. *)
Ltac nullish_absurd :=
  match goal with
  | N : nullish ?d = true, H : get_prop _ ?n = Normal _ |- _ =>
      pose proof (get_prop_nullish d n N); congruence
  end.

Ltac settle_all env := repeat (settle_step env); cbn.

Lemma map_completion_same (l : list jsval) :
  ReviewPage.map_completion (fun x => Normal x) l = Normal l.
Proof.
  induction l as [|x l IH]; simpl; [reflexivity|]. rewrite IH. reflexivity.
Qed.

Lemma map_completion_throws {A B} (f : A -> completion B) (l : list A) :
  (forall x e, f x = Abrupt e -> e = TypeError) ->
  Exists (fun x => f x = Abrupt TypeError) l ->
  ReviewPage.map_completion f l = Abrupt TypeError.
Proof.
  intros Hf. induction 1 as [x l Hx | x l Hl IH]; simpl.
  - rewrite Hx. reflexivity.
  - destruct (f x) as [y|e] eqn:E; simpl.
    + rewrite IH. reflexivity.
    + rewrite (Hf x e E). reflexivity.
Qed.

Lemma map_completion_only_throws {A B} (f : A -> completion B) (l : list A)
  (e : exn) :
  (forall x e, f x = Abrupt e -> e = TypeError) ->
  ReviewPage.map_completion f l = Abrupt e -> e = TypeError.
Proof.
  intros Hf. induction l as [|x l IH]; simpl; [discriminate|].
  destruct (f x) as [y|e0] eqn:E; simpl.
  - destruct (ReviewPage.map_completion f l); simpl; [discriminate|].
    intros [= <-]. apply IH. reflexivity.
  - intros [= <-]. apply (Hf x e0 E).
Qed.

Lemma get_prop_only_throws (name : jsstring) (x : jsval) (e : exn) :
  get_prop x name = Abrupt e -> e = TypeError.
Proof. destruct x; unfold get_prop; intros H; try discriminate; congruence. Qed.

Section LoadFurther.
Import ReviewPage.
Context {conv : NumberConversions}.

(** In a load that runs alone, no other load of the component being
    in flight beside it: while one of its requests is in flight, be it
    the first, the second or the third, the page holds the loading flag
    and no error message, and shows the loading line alone, neither the
    message of an earlier failure nor the data already stored by this
    load. There is one such moment per request issued. *)
Theorem load_in_flight (env : request -> fetch_result) (id : jsstring)
  (s : State) :
  Forall (fun st =>
            loading st = true /\
            error st = [] /\
            render st = Normal {| loading_indicator := true;
                                  error_banner := None;
                                  fragment := None |})
    (suspended_states env (fetchData id) s) /\
  List.length (suspended_states env (fetchData id) s)
  = List.length (issued (trace (load env id s))).
Proof.
  unfold load, fetchData, json.
  settle_all env; split; try reflexivity; repeat constructor.
Qed.

(** A load, however it ends, leaves the chat and the search as they
    were: the text typed, the history, the results and the two flags.
    A load for another conversation does not reset them. *)
Theorem load_keeps_chat_and_search (env : request -> fetch_result)
  (id : jsstring) (s : State) :
  let s' := final_state (load env id s) in
  chatInput s' = chatInput s /\
  chatHistory s' = chatHistory s /\
  chatLoading s' = chatLoading s /\
  searchInput s' = searchInput s /\
  searchResults s' = searchResults s /\
  searchLoading s' = searchLoading s.
Proof.
  unfold load, fetchData, json.
  settle_all env; repeat split.
Qed.
(** What a load that fails part-way leaves in the cells: the cells of
    a fetch whose body was not read, and of the fetches after it, keep
    the values they had before the load; the transcript and the audio
    address of a transcript response that was read are stored even when
    a later fetch fails. *)
Theorem load_partial_data (env : request -> fetch_result) (id : jsstring)
  (s : State) :
  let s' := final_state (load env id s) in
  (body_read (env (transcript_request id)) = false ->
   transcript s' = transcript s /\ audioUrl s' = audioUrl s /\
   pitch s' = pitch s /\ suggestions s' = suggestions s) /\
  (body_read (env (pitch_request id)) = false ->
   pitch s' = pitch s /\ suggestions s' = suggestions s) /\
  (body_read (env (suggestions_request id)) = false ->
   suggestions s' = suggestions s) /\
  (forall res data t a,
      env (transcript_request id) = Response res ->
      res_body res = Some data ->
      get_prop data (lit "transcript") = Normal t ->
      get_prop data (lit "audio_url") = Normal a ->
      transcript s' = js_or t (VArr []) /\ audioUrl s' = js_or a (VStr [])).
Proof.
  unfold load, fetchData, json.
  settle_all env;
    repeat split; intros; simpl in *; try discriminate; try congruence;
    nullish_absurd.
Qed.
(** A state that is loading, or holds an error message, is shown
    without any content, and showing it cannot throw, whatever the other
    cells hold; content is shown only by a state that is neither. *)
Theorem render_without_content (s : State) :
  (loading s = true \/ error s <> [] ->
   render s = Normal {| loading_indicator := loading s;
                        error_banner := match error s with
                                        | [] => None
                                        | _ :: _ => Some (error s)
                                        end;
                        fragment := None |}) /\
  (forall v c, render s = Normal v -> fragment v = Some c ->
               loading s = false /\ error s = [] /\
               loading_indicator v = false /\ error_banner v = None).
Proof.
  unfold render. destruct (loading s); simpl.
  - split; [|intros v c [= <-]; discriminate].
    intros _. destruct (error s); reflexivity.
  - destruct (error s) as [|ch msg] eqn:E; simpl.
    + split; [intros [H|H]; congruence|].
      intros v c. destruct (render_content s); simpl; [|discriminate].
      intros [= <-]. auto.
    + split; [reflexivity|]. intros v c [= <-]. discriminate.
Qed.

Lemma ToString_only_throws :
  forall (v : jsval) (e : exn), ToString v = Abrupt e -> e = TypeError.
Proof.
  fix IH 1. intros v. destruct v as [| |b|n|str|items|props]; intros e; simpl;
    try discriminate.
  - destruct b; discriminate.
  - revert e. revert items. fix IHl 1. intros [|x l'] e; simpl.
    + discriminate.
    + destruct (match x with
                | VUndef | VNull => Normal []
                | _ => ToString x
                end) as [part|e1] eqn:Ex.
      * specialize (IHl l').
        match goal with
        | |- context [match ?G with Normal parts => Normal (part :: parts)
                                  | Abrupt e => Abrupt e end] =>
            destruct G as [parts|e2]
        end; [discriminate|].
        intros [= <-]. apply (IHl e2). reflexivity.
      * intros [= <-]. apply (IH x).
        destruct x; try discriminate Ex; exact Ex.
  - destruct (has_own_property props (lit "toString")); [|discriminate].
    intros [= <-]. reflexivity.
Qed.

Lemma ToNumber_only_throws (v : jsval) (e : exn) :
  ToNumber v = Abrupt e -> e = TypeError.
Proof.
  destruct v as [| |[|]|n|str|items|props]; unfold ToNumber;
    try discriminate.
  - destruct (ToString (VArr items)) eqn:E; [discriminate|].
    intros [= <-]. apply (ToString_only_throws _ E).
  - destruct (ToString (VObj props)) eqn:E; [discriminate|].
    intros [= <-]. apply (ToString_only_throws _ E).
Qed.

Lemma length_gt_zero_only_throws (v : jsval) (e : exn) :
  length_gt_zero v = Abrupt e -> e = TypeError.
Proof.
  destruct v as [| |b|n|[|]|[|]|props]; simpl; try congruence.
  unfold gt_zero.
  destruct (ToNumber (own_property props (lit "length"))) eqn:E;
    [discriminate|].
  intros [= <-]. apply (ToNumber_only_throws _ E).
Qed.

Lemma render_list_only_throws (v : jsval) (child : jsval -> completion jsval)
  (placeholder : jsstring) (e : exn) :
  (forall x e, child x = Abrupt e -> e = TypeError) ->
  render_list v child placeholder = Abrupt e -> e = TypeError.
Proof.
  intros Hc. unfold render_list.
  destruct (length_gt_zero v) as [[|]|e0] eqn:El; simpl.
  - destruct v; try congruence.
    destruct (map_completion child items) eqn:Em; simpl; [discriminate|].
    intros [= <-]. apply (map_completion_only_throws _ _ Hc Em).
  - discriminate.
  - intros [= <-]. apply (length_gt_zero_only_throws _ El).
Qed.

Lemma render_search_only_throws (v : jsval) (e : exn) :
  render_search v = Abrupt e -> e = TypeError.
Proof.
  destruct v; simpl; try congruence.
  destruct (map_completion render_hit items) eqn:Em; simpl; [discriminate|].
  intros [= <-]. apply (map_completion_only_throws render_hit items); [|exact Em].
  intros x e. unfold render_hit.
  destruct (get_prop x (lit "timestamp")) eqn:E1; simpl.
  - destruct (get_prop x (lit "text")) eqn:E2; simpl; [discriminate|].
    intros [= <-]. apply (get_prop_only_throws _ _ E2).
  - intros [= <-]. apply (get_prop_only_throws _ _ E1).
Qed.

Lemma render_content_only_throws (s : State) (e : exn) :
  render_content s = Abrupt e -> e = TypeError.
Proof.
  assert (Hid : forall (x : jsval) e0, Normal x = Abrupt e0 -> e0 = TypeError)
    by (intros x e0 H; discriminate H).
  unfold render_content.
  destruct (render_list (transcript s) _ _) eqn:E1; simpl.
  2:{ intros [= <-].
      apply (render_list_only_throws _ _ _
               (get_prop_only_throws (lit "text")) E1). }
  destruct (render_list (pitch s) _ _) eqn:E2; simpl.
  2:{ intros [= <-]. apply (render_list_only_throws _ _ _ Hid E2). }
  destruct (render_list (suggestions s) _ _) eqn:E3; simpl.
  2:{ intros [= <-]. apply (render_list_only_throws _ _ _ Hid E3). }
  destruct (render_search (searchResults s)) eqn:E4; simpl; [discriminate|].
  intros [= <-]. apply (render_search_only_throws _ E4).
Qed.

(** Nothing checks what the responses carry before it is shown. A state
    that would show its content throws a [TypeError] instead when the
    transcript is a non-empty string, when a line of the transcript is
    [null], or when a search result is [null]. *)
Theorem render_throws_on_malformed (s : State) :
  loading s = false ->
  error s = [] ->
  (exists c rest, transcript s = VStr (c :: rest))
  \/ (exists lines, transcript s = VArr lines /\
                     Exists (fun line => nullish line = true) lines)
  \/ (exists results, searchResults s = VArr results /\
                       Exists (fun result => nullish result = true) results) ->
  render s = Abrupt TypeError.
Proof.
  intros Hl He Hm.
  assert (Hc : render_content s = Abrupt TypeError).
  { destruct Hm as [(c & rest & Ht) | [(lines & Ht & Hn) | (results & Hs & Hn)]].
    - unfold render_content. rewrite Ht. reflexivity.
    - unfold render_content, render_list. rewrite Ht.
      destruct lines as [|l0 lines']; [inversion Hn|]. simpl length_gt_zero.
      cbv beta iota.
      rewrite (map_completion_throws (fun line => get_prop line (lit "text"))).
      + reflexivity.
      + intros x e. apply get_prop_only_throws.
      + apply Exists_exists in Hn. destruct Hn as (x & Hx & Hnx).
        apply Exists_exists. exists x. split; [assumption|].
        apply get_prop_nullish. assumption.
    - assert (Hr : render_search (searchResults s) = Abrupt TypeError).
      { rewrite Hs. simpl.
        rewrite (map_completion_throws render_hit).
        - reflexivity.
        - intros x e. unfold render_hit.
          destruct (get_prop x (lit "timestamp")) eqn:E1; simpl.
          + destruct (get_prop x (lit "text")) eqn:E2; simpl; [discriminate|].
            intros [= <-]. apply (get_prop_only_throws _ _ E2).
          + intros [= <-]. apply (get_prop_only_throws _ _ E1).
        - apply Exists_exists in Hn. destruct Hn as (x & Hx & Hnx).
          apply Exists_exists. exists x. split; [assumption|].
          unfold render_hit. rewrite (get_prop_nullish _ _ Hnx). reflexivity. }
      destruct (render_content s) as [c|e] eqn:Ec.
      + exfalso. revert Ec. unfold render_content.
        destruct (render_list (transcript s) _ _); simpl; [|discriminate].
        destruct (render_list (pitch s) _ _); simpl; [|discriminate].
        destruct (render_list (suggestions s) _ _); simpl; [|discriminate].
        rewrite Hr. discriminate.
      + rewrite (render_content_only_throws _ Ec). reflexivity. }
  unfold render. rewrite Hl, He, Hc. reflexivity.
Qed.

Lemma chat_lines_primitive (history : list ChatMessage) :
  forallb (fun m => primitive (content m)) history = true ->
  forallb (fun l => primitive (line_content l))
    (List.map render_chat_line history) = true.
Proof.
  induction history as [|m history IH]; simpl; [reflexivity|].
  intros H. apply andb_true_iff in H. destruct H as [Hm Hh].
  rewrite (IH Hh), andb_true_r.
  unfold render_chat_line. destruct (role m); exact Hm.
Qed.

(** A load, run alone, whose three responses carry arrays of primitive
    values, on a page whose chat and search hold primitive values too,
    shows them: one child per line of the transcript, its [text], in
    order; the pitch steps and the suggestions as they came, in order; a
    placeholder for each array that is empty; and the audio player
    exactly when [audio_url] is truthy. Every child placed is a
    primitive. *)
Theorem load_then_render (env : request -> fetch_result) (id : jsstring)
  (s : State) (t_status p_status g_status : Z) (tData pData sData url : jsval)
  (lines texts steps tips : list jsval) (found : bool * list SearchHit) :
  env (transcript_request id) = json_response t_status tData ->
  env (pitch_request id) = json_response p_status pData ->
  env (suggestions_request id) = json_response g_status sData ->
  get_prop tData (lit "transcript") = Normal (VArr lines) ->
  get_prop tData (lit "audio_url") = Normal url ->
  get_prop pData (lit "pitch") = Normal (VArr steps) ->
  get_prop sData (lit "suggestions") = Normal (VArr tips) ->
  map_completion (fun line => get_prop line (lit "text")) lines
  = Normal texts ->
  forallb primitive texts = true ->
  forallb primitive steps = true ->
  forallb primitive tips = true ->
  primitive url = true ->
  forallb (fun m => primitive (content m)) (chatHistory s) = true ->
  render_search (searchResults s) = Normal found ->
  forallb (fun h => primitive (hit_label h) && primitive (hit_text h))
    (snd found) = true ->
  exists c,
    render (final_state (load env id s))
    = Normal {| loading_indicator := false; error_banner := None;
                fragment := Some c |} /\
    transcript_view c = match lines with
                        | [] => Placeholder (lit "No transcript available.")
                        | _ :: _ => Items texts
                        end /\
    pitch_view c = match steps with
                   | [] => Placeholder (lit "No pitch steps available.")
                   | _ :: _ => Items steps
                   end /\
    suggestions_view c = match tips with
                         | [] => Placeholder (lit "No suggestions available.")
                         | _ :: _ => Items tips
                         end /\
    audio_src c = (if ToBoolean url then Some url else None) /\
    children_primitive c = true.
Proof.
  intros Et Ep Eg Ht Ha Hp Hg Hm Ptexts Psteps Ptips Purl Pchat Hf Pfound.
  pose proof (chat_lines_primitive _ Pchat) as Plines.
  unfold load, fetchData. cbn.
  rewrite Et. cbn. rewrite Ht, Ha. cbn.
  rewrite Ep. cbn. rewrite Hp. cbn.
  rewrite Eg. cbn. rewrite Hg. cbn.
  unfold render, render_content. cbn -[render_list]. rewrite Hf.
  unfold render_list.
  destruct lines as [|l0 lines']; destruct steps as [|p0 steps'];
    destruct tips as [|g0 tips']; simpl length_gt_zero; cbv beta iota;
    rewrite ?Hm, ?map_completion_same; cbn;
    eexists; (split; [reflexivity|]);
    do 3 (split; [reflexivity|]); cbn;
    (split;
     [unfold js_or; destruct (ToBoolean url) eqn:Eu; rewrite ?Eu; reflexivity|]);
    unfold children_primitive; cbn -[forallb primitive];
    rewrite ?Ptexts, ?Psteps, ?Ptips, Plines, Pfound; reflexivity.
Qed.

(** Running the load again against the same answers leaves the state
    the first run left. *)
Theorem load_twice (env : request -> fetch_result) (id : jsstring) (s : State) :
  final_state (load env id (final_state (load env id s)))
  = final_state (load env id s).
Proof.
  unfold load, fetchData, json.
  settle_all env; reflexivity.
Qed.
End LoadFurther.

(** The transcript read, the pitch fetch failing on the network. *)
Lemma load_partial_data_witness :
  let s' := final_state
              (ReviewPage.load
                 (review_network (lit "abc")
                    (json_response 200
                       (VObj [(lit "transcript", VArr [VStr (lit "hi")])]))
                    NetworkError NetworkError)
                 (lit "abc") ReviewPage.initial) in
  ReviewPage.pitch s' = ReviewPage.pitch ReviewPage.initial /\
  ReviewPage.suggestions s' = ReviewPage.suggestions ReviewPage.initial.
Proof.
  apply (proj1 (proj2
           (load_partial_data
              (review_network (lit "abc")
                 (json_response 200
                    (VObj [(lit "transcript", VArr [VStr (lit "hi")])]))
                 NetworkError NetworkError)
              (lit "abc") ReviewPage.initial))).
  reflexivity.
Defined.

(** The page as mounted, still loading. *)
Lemma render_without_content_witness :
  ReviewPage.render (conv := nan_conversions) ReviewPage.initial
  = Normal {| ReviewPage.loading_indicator := true;
              ReviewPage.error_banner := None;
              ReviewPage.fragment := None |}.
Proof.
  apply (proj1 (render_without_content (conv := nan_conversions)
                  ReviewPage.initial)).
  left. reflexivity.
Defined.

(** The transcript answered [{transcript: [null]}]. *)
Lemma render_throws_on_malformed_witness :
  ReviewPage.render (conv := nan_conversions)
    (final_state
       (ReviewPage.load
          (always (json_response 200 (VObj [(lit "transcript", VArr [VNull])])))
          (lit "abc") ReviewPage.initial))
  = Abrupt TypeError.
Proof.
  apply (render_throws_on_malformed (conv := nan_conversions)).
  - reflexivity.
  - reflexivity.
  - right. left. exists [VNull]. split; [reflexivity|].
    constructor. reflexivity.
Defined.

(** One transcript line, one pitch step, one suggestion, no audio. *)
Lemma load_then_render_witness :
  exists c,
    ReviewPage.render (conv := nan_conversions)
      (final_state
         (ReviewPage.load
            (review_network (lit "abc")
               (json_response 200
                  (VObj [(lit "transcript",
                          VArr [VObj [(lit "text", VStr (lit "hi"))]])]))
               (json_response 200
                  (VObj [(lit "pitch", VArr [VStr (lit "step1")])]))
               (json_response 200
                  (VObj [(lit "suggestions", VArr [VStr (lit "say X")])])))
            (lit "abc") ReviewPage.initial))
    = Normal {| ReviewPage.loading_indicator := false;
                ReviewPage.error_banner := None;
                ReviewPage.fragment := Some c |} /\
    ReviewPage.transcript_view c = ReviewPage.Items [VStr (lit "hi")] /\
    ReviewPage.pitch_view c = ReviewPage.Items [VStr (lit "step1")] /\
    ReviewPage.suggestions_view c = ReviewPage.Items [VStr (lit "say X")] /\
    ReviewPage.audio_src c = None /\
    children_primitive c = true.
Proof.
  exact (load_then_render (conv := nan_conversions)
           (review_network (lit "abc")
              (json_response 200
                 (VObj [(lit "transcript",
                         VArr [VObj [(lit "text", VStr (lit "hi"))]])]))
              (json_response 200
                 (VObj [(lit "pitch", VArr [VStr (lit "step1")])]))
              (json_response 200
                 (VObj [(lit "suggestions", VArr [VStr (lit "say X")])])))
           (lit "abc") ReviewPage.initial
           (t_status := 200%Z) (p_status := 200%Z) (g_status := 200%Z)
           (url := VUndef) (texts := [VStr (lit "hi")]) (found := (true, []))
           eq_refl eq_refl eq_refl eq_refl eq_refl eq_refl eq_refl
           eq_refl eq_refl eq_refl eq_refl eq_refl eq_refl eq_refl eq_refl).
Defined.

(* ===================================================================== *)
(** ** Further properties of [ReviewPage]: chat, search and audio *)
(* ===================================================================== *)

Section ChatFurther.
Import ReviewPage.
Context {conv : NumberConversions}.

(** A chat submit whose input is blank after trimming does nothing at
    all: no entry, no request, no change of state. *)
Theorem chat_blank_does_nothing (env : request -> fetch_result)
  (id : jsstring) (s : State) :
  trim (chatInput s) = [] ->
  chat_submit env id s = (s, [], Normal tt).
Proof.
  intros H. unfold chat_submit, handleChatSubmit. rewrite H. reflexivity.
Qed.

(** While the chat call is in flight the sending flag is set and the
    input still holds the text: a page that shows its content shows the
    chat input and button disabled, the button reading "...". Once the
    call has settled, failed or answered with a body other than [null]
    whose [response] is a primitive value, the flag is cleared. *)
Theorem chat_in_flight (env : request -> fetch_result) (id : jsstring)
  (s : State) :
  trim (chatInput s) <> [] ->
  let u := until_await (handleChatSubmit id s) s in
  chatLoading (final_state u) = true /\
  chatInput (final_state u) = chatInput s /\
  (forall c, render_content (final_state u) = Normal c ->
             chat_disabled c = true /\ chat_button c = lit "..." /\
             chat_input_value c = chatInput s) /\
  (null_body (env (chat_request id (chatInput s))) = false ->
   response_primitive (env (chat_request id (chatInput s))) = true ->
   chatLoading (final_state (chat_submit env id s)) = false).
Proof.
  intros Hne.
  assert (Hu : let u := until_await (handleChatSubmit id s) s in
               chatLoading (final_state u) = true /\
               chatInput (final_state u) = chatInput s).
  { unfold handleChatSubmit.
    destruct (trim (chatInput s)) as [|c rest]; [congruence|]. split; reflexivity. }
  cbv zeta in *. destruct Hu as [Hl Hi].
  split; [exact Hl|]. split; [exact Hi|]. split.
  - intros c. unfold render_content.
    destruct (render_list (transcript _) _ _); simpl; [|discriminate].
    destruct (render_list (pitch _) _ _); simpl; [|discriminate].
    destruct (render_list (suggestions _) _ _); simpl; [|discriminate].
    destruct (render_search _); simpl; [|discriminate].
    intros [= <-]. simpl. rewrite Hl, Hi. repeat split.
  - intros Hnn _.
    destruct (chat_pending id s Hne) as (Ht & Ha & _).
    assert (He : render_errors
                   (trace (until_await (handleChatSubmit id s) s)) = [])
      by (rewrite Ht; reflexivity).
    unfold chat_submit.
    rewrite (proj1 (@run_after_await _ _ env _ s _ Ha He)).
    destruct (outcome_kinds (env (chat_request id (chatInput s))))
      as [Hf | [Hn | (res & data & Ho & Hb & Hd)]].
    + apply (chat_settles_failed env id s _ _ Hne Hf).
    + congruence.
    + destruct (get_prop_defined data (lit "response") Hd) as [v Hv].
      rewrite Ho. apply (chat_settles_answered env id s res _ Hne Hb Hv).
Qed.

(** A chat submit, blank or not, failing or answered with a [response]
    that is a primitive value, changes none of the cells outside the
    chat, and only ever extends the history: what was in it stays, in
    place. It grows by no entry for a blank input and by two, the user's
    and the assistant's, otherwise; except that a call answered with the
    JSON text [null] adds the user's entry alone, the updater of the
    assistant's then throwing a [TypeError] while the page is rendered,
    which nothing catches. No other of these submits throws. *)
Theorem chat_only_extends_history (env : request -> fetch_result)
  (id : jsstring) (s : State) :
  response_primitive (env (chat_request id (chatInput s))) = true ->
  let r := chat_submit env id s in
  let s' := final_state r in
  let nulled := null_body (env (chat_request id (chatInput s))) in
  transcript s' = transcript s /\
  audioUrl s' = audioUrl s /\
  pitch s' = pitch s /\
  suggestions s' = suggestions s /\
  loading s' = loading s /\
  error s' = error s /\
  searchInput s' = searchInput s /\
  searchResults s' = searchResults s /\
  searchLoading s' = searchLoading s /\
  (exists added,
      chatHistory s' = chatHistory s ++ added /\
      List.length added = match trim (chatInput s) with
                          | [] => 0
                          | _ :: _ => if nulled then 1 else 2
                          end) /\
  render_errors (trace r) = match trim (chatInput s) with
                            | [] => []
                            | _ :: _ => if nulled then [TypeError] else []
                            end.
Proof.
  intros _. cbv zeta.
  destruct (trim (chatInput s)) as [|c rest] eqn:E.
  { unfold chat_submit, handleChatSubmit. rewrite E. cbn.
    do 9 (split; [reflexivity|]). split; [|reflexivity].
    exists []. rewrite app_nil_r. auto. }
  assert (Hne : trim (chatInput s) <> []) by (rewrite E; discriminate).
  destruct (chat_pending id s Hne) as (Ht & Ha & Hh).
  assert (He : render_errors
                 (trace (until_await (handleChatSubmit id s) s)) = [])
    by (rewrite Ht; reflexivity).
  assert (Hframe : let u := final_state (until_await (handleChatSubmit id s) s) in
                   transcript u = transcript s /\ audioUrl u = audioUrl s /\
                   pitch u = pitch s /\ suggestions u = suggestions s /\
                   loading u = loading s /\ error u = error s /\
                   searchInput u = searchInput s /\
                   searchResults u = searchResults s /\
                   searchLoading u = searchLoading s).
  { unfold handleChatSubmit. rewrite E. repeat split. }
  cbv zeta in Hframe.
  destruct Hframe as (F1 & F2 & F3 & F4 & F5 & F6 & F7 & F8 & F9).
  unfold chat_submit.
  destruct (@run_after_await _ _ env _ s _ Ha He) as (Rs & Rt & _).
  rewrite Rs, Rt, Ht.
  set (u := final_state (until_await (handleChatSubmit id s) s)) in *.
  assert (Hrest :
             let r := run env
                        (resume (outcome (until_await (handleChatSubmit id s) s))
                           (env (chat_request id (chatInput s))))
                        u in
             transcript (final_state r) = transcript u /\
             audioUrl (final_state r) = audioUrl u /\
             pitch (final_state r) = pitch u /\
             suggestions (final_state r) = suggestions u /\
             loading (final_state r) = loading u /\
             error (final_state r) = error u /\
             searchInput (final_state r) = searchInput u /\
             searchResults (final_state r) = searchResults u /\
             searchLoading (final_state r) = searchLoading u).
  { unfold handleChatSubmit, json. rewrite E.
    settle_all env; repeat split. }
  cbv zeta in Hrest.
  destruct Hrest as (G1 & G2 & G3 & G4 & G5 & G6 & G7 & G8 & G9).
  split; [congruence|]. split; [congruence|]. split; [congruence|].
  split; [congruence|]. split; [congruence|]. split; [congruence|].
  split; [congruence|]. split; [congruence|]. split; [congruence|].
  destruct (outcome_kinds (env (chat_request id (chatInput s))))
    as [Hf | [Hn | (res & data & Ho & Hb & Hd)]].
  - rewrite (call_fails_not_null _ Hf).
    destruct (chat_settles_failed env id s _ u Hne Hf) as (H1 & H2 & _).
    rewrite H1, H2, Hh, <- app_assoc. split; [|reflexivity].
    eexists. split; reflexivity.
  - rewrite Hn.
    destruct (chat_settles_null env id s _ u Hne Hn) as (H1 & H2).
    rewrite H1, H2, Hh. split; [|reflexivity].
    eexists. split; reflexivity.
  - assert (Hnn : null_body (env (chat_request id (chatInput s))) = false)
      by (rewrite Ho; simpl; rewrite Hb; exact Hd).
    rewrite Hnn.
    destruct (get_prop_defined data (lit "response") Hd) as [v Hv].
    rewrite Ho.
    destruct (chat_settles_answered env id s res u Hne Hb Hv) as (H1 & H2 & _).
    rewrite H1, H2, Hh, <- app_assoc. split; [|reflexivity].
    eexists. split; reflexivity.
Qed.
End ChatFurther.

Section SearchFurther.
Import ReviewPage.
Context {conv : NumberConversions}.

(** A search submit whose query is blank after trimming does nothing at
    all. *)
Theorem search_blank_does_nothing (env : request -> fetch_result)
  (id : jsstring) (s : State) :
  trim (searchInput s) = [] ->
  search_submit env id s = (s, [], Normal tt).
Proof.
  intros H. unfold search_submit, handleSearchSubmit. rewrite H. reflexivity.
Qed.

(** While the search call is in flight the searching flag is set and
    the results of the previous search are still the ones held; the
    request issued carries the query as typed, not trimmed. *)
Theorem search_in_flight (id : jsstring) (s : State) :
  trim (searchInput s) <> [] ->
  let u := until_await (handleSearchSubmit id s) s in
  trace u = [Issued (search_request id (searchInput s))] /\
  awaiting (outcome u) = Some (search_request id (searchInput s)) /\
  searchLoading (final_state u) = true /\
  searchResults (final_state u) = searchResults s /\
  searchInput (final_state u) = searchInput s.
Proof.
  intros Hne. unfold handleSearchSubmit.
  destruct (trim (searchInput s)) as [|c rest]; [congruence|].
  repeat split.
Qed.

(** A search answered with a truthy [results] field replaces the
    results held by that field, whatever they were and whatever the
    status; the query stays in the input, the searching flag is cleared,
    and one request was issued. *)
Theorem search_replaces_results (env : request -> fetch_result)
  (id : jsstring) (s : State) (res : response) (data v : jsval) :
  trim (searchInput s) <> [] ->
  env (search_request id (searchInput s)) = Response res ->
  res_body res = Some data ->
  get_prop data (lit "results") = Normal v ->
  ToBoolean v = true ->
  let r := search_submit env id s in
  searchResults (final_state r) = v /\
  searchInput (final_state r) = searchInput s /\
  searchLoading (final_state r) = false /\
  issued (trace r) = [search_request id (searchInput s)].
Proof.
  intros Hne He Hb Hv Ht. unfold search_submit, handleSearchSubmit.
  destruct (trim (searchInput s)) as [|c rest]; [congruence|].
  cbn. rewrite He. cbn. unfold json. rewrite Hb. cbn. rewrite Hv. cbn.
  unfold js_or. rewrite Ht. repeat split.
Qed.

(** A search submit, however it ends, changes nothing but the results
    and the searching flag, which it leaves cleared: the loaded data,
    the error message, the chat and the query typed stay as they
    were. *)
Theorem search_changes_only_results (env : request -> fetch_result)
  (id : jsstring) (s : State) :
  let s' := final_state (search_submit env id s) in
  transcript s' = transcript s /\
  audioUrl s' = audioUrl s /\
  pitch s' = pitch s /\
  suggestions s' = suggestions s /\
  loading s' = loading s /\
  error s' = error s /\
  chatInput s' = chatInput s /\
  chatHistory s' = chatHistory s /\
  chatLoading s' = chatLoading s /\
  searchInput s' = searchInput s /\
  (trim (searchInput s) <> [] -> searchLoading s' = false).
Proof.
  unfold search_submit, handleSearchSubmit, json.
  destruct (trim (searchInput s)) as [|c rest].
  { cbn. repeat split. congruence. }
  settle_all env; repeat split.
Qed.

End SearchFurther.

(** Three spaces typed in the chat input. *)
Lemma chat_blank_does_nothing_witness :
  ReviewPage.chat_submit (always (json_response 200 (VObj []))) (lit "abc")
    (typed_in_chat (lit "   "))
  = (typed_in_chat (lit "   "), [], Normal tt).
Proof.
  apply (chat_blank_does_nothing (always (json_response 200 (VObj [])))
           (lit "abc") (typed_in_chat (lit "   "))).
  reflexivity.
Defined.

(** ["hello"] sent, the call not yet answered. *)
Lemma chat_in_flight_witness :
  ReviewPage.chatLoading
    (final_state
       (until_await
          (ReviewPage.handleChatSubmit (lit "abc") (typed_in_chat (lit "hello")))
          (typed_in_chat (lit "hello"))))
  = true.
Proof.
  apply (chat_in_flight (conv := nan_conversions) (always NetworkError)
           (lit "abc") (typed_in_chat (lit "hello"))).
  vm_compute. discriminate.
Defined.

(** ["hello"] answered with the JSON text [null]. *)
Lemma chat_only_extends_history_witness :
  render_errors
    (trace
       (ReviewPage.chat_submit (always (json_response 200 VNull)) (lit "abc")
          (typed_in_chat (lit "hello"))))
  = [TypeError].
Proof.
  apply (chat_only_extends_history (always (json_response 200 VNull))
           (lit "abc") (typed_in_chat (lit "hello"))).
  reflexivity.
Defined.

(** One space typed in the search input. *)
Lemma search_blank_does_nothing_witness :
  ReviewPage.search_submit (always (json_response 200 (VObj []))) (lit "abc")
    (typed_in_search (lit " "))
  = (typed_in_search (lit " "), [], Normal tt).
Proof.
  apply (search_blank_does_nothing (always (json_response 200 (VObj [])))
           (lit "abc") (typed_in_search (lit " "))).
  reflexivity.
Defined.

(** The query "price" sent, the call not yet answered. *)
Lemma search_in_flight_witness :
  ReviewPage.searchLoading
    (final_state
       (until_await
          (ReviewPage.handleSearchSubmit (lit "abc")
             (typed_in_search (lit "price")))
          (typed_in_search (lit "price"))))
  = true.
Proof.
  apply (search_in_flight (lit "abc") (typed_in_search (lit "price"))).
  vm_compute. discriminate.
Defined.

(** The query "price" answered with one result. *)
Lemma search_replaces_results_witness :
  ReviewPage.searchResults
    (final_state
       (ReviewPage.search_submit
          (always (json_response 200
                     (VObj [(lit "results", VArr [price_result])])))
          (lit "abc") (typed_in_search (lit "price"))))
  = VArr [price_result].
Proof.
  refine (proj1
            (search_replaces_results
               (always (json_response 200
                          (VObj [(lit "results", VArr [price_result])])))
               (lit "abc") (typed_in_search (lit "price"))
               (res := {| res_status := 200;
                          res_body :=
                            Some (VObj [(lit "results", VArr [price_result])]) |})
               (data := VObj [(lit "results", VArr [price_result])])
               (v := VArr [price_result])
               _ eq_refl eq_refl eq_refl eq_refl)).
  vm_compute. discriminate.
Defined.

